(** * ffufai: a shallow embedding of [ffufai.py] and its specification

    The program is sequential glue around four external services: the
    process environment, one HTTP HEAD probe, one completion call to a
    language-model provider and one child process.  The embedding keeps
    the control flow of the source (the [try]/[except] blocks, the early
    [return]s, the order of the calls) and records every externally
    visible action in a trace, so that statements such as "no child
    process is started" or "the probe happens before the provider is
    chosen" become statements about lists of events.

    Conventions.
    - Python [str] values are modelled by [string]; a character stands
      for a code point below 256.
    - Python [dict]s with string keys are [gmap string _].
    - Python [int]s are [Z].
    - Library calls whose result depends on the outside world
      ([requests.head], [requests.post], the two vendor clients,
      [subprocess.run]) are fields of a [World]; pure library functions
      that are not part of this repository ([json.loads],
      [urllib.parse.urlparse]) are variables of the section that holds
      the program. *)

From stdpp Require Import gmap strings list.
From Stdlib Require Import ZArith Ascii String Lia.

Set Warnings "-register-all".
#[local] Open Scope string_scope.
#[local] Open Scope list_scope.

(** ** Python values, exceptions and results *)

(** The values [json.loads] can produce.  A float is kept as its
    literal text: the program never computes with one. *)
Inductive pyval : Type :=
| PNone
| PBool (b : bool)
| PInt (z : Z)
| PFloat (literal : string)
| PStr (s : string)
| PList (l : list pyval)
| PDict (d : gmap string pyval).

(** What a subscript expression [obj[key]] was applied to, as carried by
    a [KeyError]. *)
Inductive pykey : Type :=
| KStr (s : string)
| KSlice (stop : Z).

(** The exception values that can travel through the program, one
    constructor per class the code raises, catches or lets through.
    The message of an exception that the program never prints is
    abridged. *)
Inductive exn : Type :=
| ValueError (msg : string)
| IndexError (msg : string)
| KeyError (key : pykey)
| TypeError (msg : string)
| AttributeError (msg : string)
| JSONDecodeError (msg : string)
| RequestException (msg : string)
| HTTPError (status_code : Z)
| OtherError (cls msg : string).

(** The classes that appear in [except] clauses. *)
Inductive exn_class : Type :=
| C_ValueError | C_IndexError | C_KeyError | C_TypeError | C_AttributeError
| C_JSONDecodeError | C_RequestException | C_HTTPError | C_Other.

Definition class_of (e : exn) : exn_class :=
  match e with
  | ValueError _ => C_ValueError
  | IndexError _ => C_IndexError
  | KeyError _ => C_KeyError
  | TypeError _ => C_TypeError
  | AttributeError _ => C_AttributeError
  | JSONDecodeError _ => C_JSONDecodeError
  | RequestException _ => C_RequestException
  | HTTPError _ => C_HTTPError
  | OtherError _ _ => C_Other
  end.

(** [subclass c d]: an instance of [c] is an instance of [d].
    [json.JSONDecodeError] derives from [ValueError] and
    [requests.HTTPError] from [requests.RequestException]. *)
Definition subclass (c d : exn_class) : bool :=
  match c, d with
  | C_ValueError, C_ValueError
  | C_IndexError, C_IndexError
  | C_KeyError, C_KeyError
  | C_TypeError, C_TypeError
  | C_AttributeError, C_AttributeError
  | C_JSONDecodeError, C_JSONDecodeError
  | C_JSONDecodeError, C_ValueError
  | C_RequestException, C_RequestException
  | C_HTTPError, C_HTTPError
  | C_HTTPError, C_RequestException => true
  | _, _ => false
  end.

(** [except (c1, ..., cn)] applied to a raised [e]. *)
Definition caught_by (handlers : list exn_class) (e : exn) : bool :=
  existsb (subclass (class_of e)) handlers.

(** The result of evaluating an expression: a value or a raised
    exception. *)
Inductive result (A : Type) : Type :=
| Val (a : A)
| Exc (e : exn).
Arguments Val {A} a.
Arguments Exc {A} e.

(** ** Externally visible actions *)

(** The prompt is an f-string whose fixed text surrounds three holes:
    [{url}], [{headers}] and [{max_extensions}].  It is represented by
    the values that fill the holes. *)
Record prompt : Type := Prompt {
  prompt_url : string;
  prompt_headers : gmap string string;
  prompt_max_extensions : Z
}.

(** What [print] was given. *)
Inductive output : Type :=
| OStr (s : string)                 (* print("...") *)
| OFmt (prefix : string) (e : exn)  (* print(f"...{e}") *)
| OVal (v : pyval).                 (* print(value) *)

Inductive event : Type :=
| EPrint (o : output)
| EHead (url : string)                      (* requests.head(url, allow_redirects=True) *)
| EOpenAI (api_key : string) (p : prompt)   (* chat.completions.create, model gpt-4o *)
| EAnthropic (api_key : string) (p : prompt)(* messages.create, model claude-3-5-sonnet-20240620 *)
| EOllama (model : string) (p : prompt)     (* requests.post to localhost:11434/api/generate *)
| ERun (cmd : list string).                 (* subprocess.run(cmd) *)

(** The body of an HTTP response as far as the program reads it. *)
Record response : Type := Response {
  status_code : Z;
  text : string
}.

(** Everything outside the process. *)
Record World : Type := {
  (** [dict(requests.head(url, allow_redirects=True).headers)] *)
  requests_head : string -> result (gmap string string);
  (** the [message.content] of every choice of the completion; [None]
      where the service sent no text *)
  openai_create : string -> prompt -> result (list (option string));
  (** the [text] of every content block of the message *)
  anthropic_create : string -> prompt -> result (list string);
  requests_post : string -> prompt -> result response;
  subprocess_run : list string -> result unit
}.

(** ** The trace monad

    A computation yields the events it performed, in order, and either a
    value or the exception that stopped it. *)
Definition M (A : Type) : Type := (list event * result A)%type.

Definition ret {A} (a : A) : M A := ([], Val a).

Definition bind {A B} (m : M A) (f : A -> M B) : M B :=
  match m with
  | (t, Val a) => let '(t', r) := f a in (t ++ t', r)
  | (t, Exc e) => (t, Exc e)
  end.

Definition lift {A} (r : result A) : M A := ([], r).
Definition raise {A} (e : exn) : M A := ([], Exc e).
Definition emit (ev : event) : M unit := ([ev], Val tt).
Definition print (o : output) : M unit := emit (EPrint o).

(** [try: m  except handlers as e: h e] *)
Definition try_except {A} (m : M A) (handlers : list exn_class) (h : exn -> M A) : M A :=
  match m with
  | (t, Val a) => (t, Val a)
  | (t, Exc e) =>
      if caught_by handlers e then let '(t', r) := h e in (t ++ t', r)
      else (t, Exc e)
  end.

Notation "x <- m ;; k" := (bind m (fun x => k))
  (at level 100, m at next level, right associativity).
Notation "m ;;; k" := (bind m (fun _ => k))
  (at level 100, right associativity).

Definition trace {A} (m : M A) : list event := fst m.
Definition outcome {A} (m : M A) : result A := snd m.

(** ** Built-in operations of Python used by the program *)

(** [l.index(x)] *)
Fixpoint list_index (x : string) (l : list string) : result Z :=
  match l with
  | [] => Exc (ValueError ("'" +:+ x +:+ "' is not in list"))
  | y :: l' =>
      if String.eqb y x then Val 0%Z
      else match list_index x l' with
           | Val i => Val (i + 1)%Z
           | Exc e => Exc e
           end
  end.

(** [l[i]] for an [int] index: a negative index counts from the end. *)
Definition py_getitem {A} (l : list A) (i : Z) : result A :=
  let n := Z.of_nat (List.length l) in
  let j := if (i <? 0)%Z then (i + n)%Z else i in
  if ((0 <=? j) && (j <? n))%Z then
    match l !! Z.to_nat j with
    | Some a => Val a
    | None => Exc (IndexError "list index out of range")
    end
  else Exc (IndexError "list index out of range").

(** [l[:n]]: the first [n] items, or all but the last [-n] when [n] is
    negative. *)
Definition py_slice_to {A} (n : Z) (l : list A) : list A :=
  if (0 <=? n)%Z then take (Z.to_nat n) l
  else take (Z.to_nat (Z.of_nat (List.length l) + n)) l.

(** [needle in s] *)
Fixpoint str_contains (needle s : string) : bool :=
  String.prefix needle s ||
  match s with
  | EmptyString => false
  | String _ s' => str_contains needle s'
  end.

(** [s.split(sep)] for a separator of one character. *)
Fixpoint str_split (sep : ascii) (s : string) : list string :=
  match s with
  | EmptyString => [EmptyString]
  | String c s' =>
      if Ascii.eqb c sep then EmptyString :: str_split sep s'
      else match str_split sep s' with
           | h :: t => String c h :: t
           | [] => [String c EmptyString]
           end
  end.

(** [s.replace(old, '')] for a non-empty [old]: occurrences are removed
    from left to right without overlap.  [skip] counts the characters of
    the occurrence being removed that are still to drop. *)
Fixpoint str_remove_go (old : string) (skip : nat) (s : string) : string :=
  match s with
  | EmptyString => EmptyString
  | String c s' =>
      match skip with
      | S k => str_remove_go old k s'
      | O =>
          if String.prefix old s then str_remove_go old (String.length old - 1) s'
          else String c (str_remove_go old 0 s')
      end
  end.

Definition str_remove (old s : string) : string := str_remove_go old 0 s.

(** [c.isspace()] for a code point below 256. *)
Definition is_space (c : ascii) : bool :=
  let n := N_of_ascii c in
  ((9 <=? n) && (n <=? 13) || (28 <=? n) && (n <=? 32) || (n =? 133) || (n =? 160))%N.

Fixpoint str_lstrip (s : string) : string :=
  match s with
  | EmptyString => EmptyString
  | String c s' => if is_space c then str_lstrip s' else s
  end.

Fixpoint str_rstrip (s : string) : string :=
  match s with
  | EmptyString => EmptyString
  | String c s' =>
      match str_rstrip s' with
      | EmptyString => if is_space c then EmptyString else String c EmptyString
      | r => String c r
      end
  end.

(** [s.strip()] *)
Definition str_strip (s : string) : string := str_rstrip (str_lstrip s).

(** The one-character strings a [str] yields when iterated. *)
Definition str_chars (s : string) : list string :=
  (fun c => String c EmptyString) <$> list_ascii_of_string s.

(** [sep.join(items)] for items that are all [str]. *)
Definition str_join (sep : string) (items : list string) : string :=
  String.concat sep items.

(** A value used where a [str] is required. *)
Definition as_str (v : pyval) : option string :=
  match v with
  | PStr s => Some s
  | _ => None
  end.

(** The truth value of what [os.getenv] returned. *)
Definition truthy (v : option string) : bool :=
  match v with
  | Some s => negb (String.eqb s EmptyString)
  | None => false
  end.

(** The value [os.getenv] returned when it is truthy: the variable is
    set and its value is not the empty string. *)
Definition truthy_value (v : option string) : option string :=
  match v with
  | Some s => if truthy v then Some s else None
  | None => None
  end.

(** [obj[key]] for a [str] key. *)
Definition py_subscript (obj : pyval) (key : string) : result pyval :=
  match obj with
  | PDict d =>
      match d !! key with
      | Some v => Val v
      | None => Exc (KeyError (KStr key))
      end
  | PList _ => Exc (TypeError "list indices must be integers or slices, not str")
  | PStr _ => Exc (TypeError "string indices must be integers, not 'str'")
  | _ => Exc (TypeError "object is not subscriptable")
  end.

(** What a slice of a list or of a [str] is: again a list, or a [str]. *)
Inductive pyseq : Type :=
| SeqList (l : list pyval)
| SeqStr (s : string).

(** [response.raise_for_status()]: an error status raises
    [requests.HTTPError]. *)
Definition raise_for_status (r : response) : result unit :=
  if ((400 <=? status_code r) && (status_code r <? 600))%Z
  then Exc (HTTPError (status_code r))
  else Val tt.

(** [sep.join(seq)]: every item must be a [str]; a [str] is joined
    character by character. *)
Definition py_join (sep : string) (seq : pyseq) : result string :=
  match seq with
  | SeqList l =>
      match mapM as_str l with
      | Some items => Val (str_join sep items)
      | None => Exc (TypeError "sequence item: expected str instance")
      end
  | SeqStr s => Val (str_join sep (str_chars s))
  end.

(** ** The program *)

(** The options [argparse] recognises: [--ffuf-path] (default ["ffuf"])
    and [--max-extensions] (an [int], default 4). *)
Record Args : Type := {
  ffuf_path : string;
  max_extensions : Z
}.

Definition default_args : Args := {| ffuf_path := "ffuf"; max_extensions := 4 |}.

Section Program.

(** [json.loads] on a [str]: the decoded value, or a raised
    [json.JSONDecodeError]. *)
Variable json_loads : string -> result pyval.

(** [urlparse(url).path], or the [ValueError] that [urlparse] raises
    on a malformed URL. *)
Variable urlparse_path : string -> result string.

(** Whether [slice] objects are hashable (they are from Python 3.12
    on): it decides which exception [d[:n]] raises on a [dict]. *)
Variable slice_hashable : bool.

(** The process environment, [os.environ]. *)
Variable environ : gmap string string.

Variable world : World.

Definition getenv (name : string) : option string := environ !! name.

(** [json.loads(obj)] on an arbitrary value. *)
Definition json_loads_value (obj : pyval) : result pyval :=
  match obj with
  | PStr s => json_loads s
  | _ => Exc (TypeError "the JSON object must be str, bytes or bytearray")
  end.

(** [obj[:n]] *)
Definition py_slice (obj : pyval) (n : Z) : result pyseq :=
  match obj with
  | PList l => Val (SeqList (py_slice_to n l))
  | PStr s =>
      Val (SeqStr (string_of_list_ascii (py_slice_to n (list_ascii_of_string s))))
  | PDict _ =>
      if slice_hashable then Exc (KeyError (KSlice n))
      else Exc (TypeError "unhashable type: 'slice'")
  | _ => Exc (TypeError "object is not subscriptable")
  end.

Definition get_llm_provider : result (string * string) :=
  match truthy_value (getenv "OLLAMA_MODEL") with
  | Some model => Val ("ollama", model)
  | None =>
      let openai_key := getenv "OPENAI_API_KEY" in
      let anthropic_key := getenv "ANTHROPIC_API_KEY" in
      match truthy_value anthropic_key with
      | Some key => Val ("anthropic", key)
      | None =>
          match truthy_value openai_key with
          | Some key => Val ("openai", key)
          | None =>
              Exc (ValueError "No API key or Ollama model found. Please set OLLAMA_MODEL, OPENAI_API_KEY, or ANTHROPIC_API_KEY.")
          end
      end
  end.

Definition error_headers : gmap string string :=
  {[ "Header" := "Error fetching headers." ]}.

Definition get_headers (url : string) : M (gmap string string) :=
  try_except
    (emit (EHead url) ;;;
     lift (requests_head world url))
    [C_RequestException]
    (fun e =>
       print (OFmt "Error fetching headers: " e) ;;;
       ret error_headers).

Definition get_ai_extensions (url : string) (headers : gmap string string)
    (provider model_or_key : string) (max_extensions : Z) : M pyval :=
  let prompt := Prompt url headers max_extensions in
  if String.eqb provider "openai" then
    emit (EOpenAI model_or_key prompt) ;;;
    choices <- lift (openai_create world model_or_key prompt) ;;
    choice <- lift (py_getitem choices 0) ;;
    match choice with
    | Some content => lift (json_loads (str_strip content))
    | None => raise (AttributeError "'NoneType' object has no attribute 'strip'")
    end
  else if String.eqb provider "anthropic" then
    emit (EAnthropic model_or_key prompt) ;;;
    content <- lift (anthropic_create world model_or_key prompt) ;;
    block <- lift (py_getitem content 0) ;;
    lift (json_loads block)
  else if String.eqb provider "ollama" then
    try_except
      (emit (EOllama model_or_key prompt) ;;;
       response <- lift (requests_post world model_or_key prompt) ;;
       lift (raise_for_status response) ;;;
       envelope <- lift (json_loads (text response)) ;;
       inner <- lift (py_subscript envelope "response") ;;
       lift (json_loads_value inner))
      [C_RequestException]
      (fun e =>
         print (OFmt "Error communicating with Ollama: " e) ;;;
         ret PNone)
  else ret PNone.

Definition url_error : output := OStr "Error: -u URL argument is required.".
Definition fuzz_warning : output :=
  OStr "Warning: FUZZ keyword is not at the end of the URL path. Extension fuzzing may not work as expected.".
Definition parse_error (e : exn) : output :=
  OFmt "Error parsing AI response. Try again. Error: " e.

(** The first [try] block of [main]: the token after the first [-u]. *)
Definition find_url (unknown : list string) : result string :=
  match list_index "-u" unknown with
  | Val i => let url_index := (i + 1)%Z in py_getitem unknown url_index
  | Exc e => Exc e
  end.

(** The second [try] block of [main].  [None] stands for the [return]
    taken when the suggester gave [None]; [Some extensions] for
    reaching the end of the block. *)
Definition suggest (args : Args) (url : string) (headers : gmap string string)
    (provider model_or_key : string) : M (option string) :=
  extensions_data <-
    get_ai_extensions url headers provider model_or_key (max_extensions args) ;;
  match extensions_data with
  | PNone => ret None
  | _ =>
      print (OVal extensions_data) ;;;
      listed <- lift (py_subscript extensions_data "extensions") ;;
      first <- lift (py_slice listed (max_extensions args)) ;;
      extensions <- lift (py_join "," first) ;;
      ret (Some extensions)
  end.

(** [main], after [parse_known_args] has split the command line into
    the recognised [args] and the pass-through tokens [unknown].  In
    both [try] blocks [None] marks the path that ends in [return]. *)
Definition main (args : Args) (unknown : list string) : M unit :=
  found <-
    try_except
      (url <- lift (find_url unknown) ;; ret (Some url))
      [C_ValueError; C_IndexError]
      (fun _ => print url_error ;;; ret None) ;;
  match found with
  | None => ret tt
  | Some url =>
      path <- lift (urlparse_path url) ;;
      let path_parts := str_split "/" path in
      last_part <- lift (py_getitem path_parts (-1)) ;;
      (if negb (str_contains "FUZZ" last_part) then print fuzz_warning else ret tt) ;;;
      let base_url := str_remove "FUZZ" url in
      headers <- get_headers base_url ;;
      selected <- lift get_llm_provider ;;
      let '(provider, model_or_key) := selected in
      suggested <-
        try_except
          (suggest args url headers provider model_or_key)
          [C_JSONDecodeError; C_KeyError]
          (fun e => print (parse_error e) ;;; ret None) ;;
      match suggested with
      | None => ret tt
      | Some extensions =>
          let ffuf_command := [ffuf_path args] ++ unknown ++ ["-e"; extensions] in
          emit (ERun ffuf_command) ;;;
          lift (subprocess_run world ffuf_command)
      end
  end.

End Program.

(** ** Observations on traces *)

Definition is_head (ev : event) : bool :=
  match ev with EHead _ => true | _ => false end.

Definition is_provider_call (ev : event) : bool :=
  match ev with EOpenAI _ _ | EAnthropic _ _ | EOllama _ _ => true | _ => false end.

Definition is_run (ev : event) : bool :=
  match ev with ERun _ => true | _ => false end.

(** An outbound HTTP request: the header probe or a completion call. *)
Definition is_http (ev : event) : bool := is_head ev || is_provider_call ev.

Definition is_parse_error (ev : event) : bool :=
  match ev with
  | EPrint (OFmt prefix _) => String.eqb prefix "Error parsing AI response. Try again. Error: "
  | _ => false
  end.

(** A fixed line of text: the URL error or the placeholder warning. *)
Definition is_notice (ev : event) : bool :=
  match ev with EPrint (OStr _) => true | _ => false end.

(** What the probe and the suggester print: the value received, or a
    message about an exception other than the parse-error message. *)
Definition is_diagnostic (ev : event) : bool :=
  match ev with
  | EPrint (OFmt _ _) => negb (is_parse_error ev)
  | EPrint (OVal _) => true
  | _ => false
  end.

Definition count (p : event -> bool) (t : list event) : nat :=
  List.length (List.filter p t).

Definition config_error : exn :=
  ValueError "No API key or Ollama model found. Please set OLLAMA_MODEL, OPENAI_API_KEY, or ANTHROPIC_API_KEY.".

(** The events [main] emits between reading the URL and the probe. *)
Definition warning_events (path : string) : list event :=
  match py_getitem (str_split "/" path) (-1) with
  | Val last_part =>
      if negb (str_contains "FUZZ" last_part) then [EPrint fuzz_warning] else []
  | Exc _ => []
  end.

(** The HTTP request of the local-model call together with its status
    check. *)
Definition ollama_request (world : World) (model : string) (p : prompt) : result response :=
  match requests_post world model p with
  | Val r =>
      match raise_for_status r with
      | Val _ => Val r
      | Exc e => Exc e
      end
  | Exc e => Exc e
  end.

(** The first [n] entries of the value stored under ["extensions"], as
    the strings that get joined: the items of a list, or the characters
    of a [str]. *)
Definition first_entries (n : nat) (listed : pyval) : option (list string) :=
  match listed with
  | PList l => mapM as_str (take n l)
  | PStr s => Some (take n (str_chars s))
  | _ => None
  end.

(** ** Stages of a run *)

(** The completion request the suggester sends for a provider name. *)
Definition completion_call (provider model_or_key : string) (p : prompt) : list event :=
  if String.eqb provider "openai" then [EOpenAI model_or_key p]
  else if String.eqb provider "anthropic" then [EAnthropic model_or_key p]
  else if String.eqb provider "ollama" then [EOllama model_or_key p]
  else [].

(** Line 128 of the source on a decoded response: look up the key,
    slice, join. *)
Definition extract (slice_hashable : bool) (n : Z) (data : pyval) : result string :=
  match py_subscript data "extensions" with
  | Val listed =>
      match py_slice slice_hashable listed n with
      | Val first => py_join "," first
      | Exc e => Exc e
      end
  | Exc e => Exc e
  end.

(** The block together with its [except] clause. *)
Definition guarded_suggest (json_loads : string -> result pyval) (slice_hashable : bool)
    (world : World) (args : Args) (url : string) (headers : gmap string string)
    (provider model_or_key : string) : M (option string) :=
  try_except
    (suggest json_loads slice_hashable world args url headers provider model_or_key)
    [C_JSONDecodeError; C_KeyError]
    (fun e => print (parse_error e) ;;; ret None).

(** [ffuf_command] as [main] builds it. *)
Definition child_command (args : Args) (unknown : list string) (extensions : string)
  : list string :=
  [ffuf_path args] ++ unknown ++ ["-e"; extensions].

(** What [main] does once the second [try] block has ended with
    [suggested]. *)
Definition finish (world : World) (args : Args) (unknown : list string)
    (suggested : result (option string)) : M unit :=
  match suggested with
  | Val None => ret tt
  | Val (Some extensions) =>
      emit (ERun (child_command args unknown extensions)) ;;;
      lift (subprocess_run world (child_command args unknown extensions))
  | Exc e => raise e
  end.

(** The run gets as far as the completion request: a URL follows the
    first [-u], [urlparse] accepts it, the probe leaves [headers] behind
    and the environment selects ([provider], [model_or_key]). *)
Definition reaches_provider (urlparse_path : string -> result string)
    (environ : gmap string string) (world : World) (unknown : list string)
    (url : string) (headers : gmap string string) (provider model_or_key : string) : Prop :=
  find_url unknown = Val url /\
  (exists path, urlparse_path url = Val path) /\
  outcome (get_headers world (str_remove "FUZZ" url)) = Val headers /\
  get_llm_provider environ = Val (provider, model_or_key).

(** ** Concrete instances used in the examples *)

Module Demo.

Definition dq : string := String "034"%char EmptyString.

(** [{"extensions": [".pdf", ".ppt", ".pptx", ".doc"]}] *)
Definition four_extensions_text : string :=
  "{" +:+ dq +:+ "extensions" +:+ dq +:+ ": [" +:+
  dq +:+ ".pdf" +:+ dq +:+ ", " +:+ dq +:+ ".ppt" +:+ dq +:+ ", " +:+
  dq +:+ ".pptx" +:+ dq +:+ ", " +:+ dq +:+ ".doc" +:+ dq +:+ "]}".

Definition four_extensions : pyval :=
  PDict {[ "extensions" := PList [PStr ".pdf"; PStr ".ppt"; PStr ".pptx"; PStr ".doc"] ]}.

(** [{"extensions": [".pdf", ".pptx"]}] *)
Definition two_extensions_text : string :=
  "{" +:+ dq +:+ "extensions" +:+ dq +:+ ": [" +:+
  dq +:+ ".pdf" +:+ dq +:+ ", " +:+ dq +:+ ".pptx" +:+ dq +:+ "]}".

Definition two_extensions : pyval :=
  PDict {[ "extensions" := PList [PStr ".pdf"; PStr ".pptx"] ]}.

(** [[".php", ".html"]]: valid JSON, but an array, not an object. *)
Definition bare_list_text : string :=
  "[" +:+ dq +:+ ".php" +:+ dq +:+ ", " +:+ dq +:+ ".html" +:+ dq +:+ "]".

Definition bare_list : pyval := PList [PStr ".php"; PStr ".html"].

(** The graph of [json.loads] on the texts used below; any other text
    is treated as malformed. *)
Definition json_loads (s : string) : result pyval :=
  if String.eqb s four_extensions_text then Val four_extensions
  else if String.eqb s two_extensions_text then Val two_extensions
  else if String.eqb s bare_list_text then Val bare_list
  else if String.eqb s "null" then Val PNone
  else Exc (JSONDecodeError "Expecting value: line 1 column 1 (char 0)").

(** What follows the authority in [scheme://authority/path]: it agrees
    with [urlparse(url).path] on URLs of that shape that have no
    query, fragment or parameters. *)
Fixpoint drop_authority (s : string) : string :=
  match s with
  | EmptyString => EmptyString
  | String c s' => if Ascii.eqb c "/" then s else drop_authority s'
  end.

Fixpoint drop_scheme (s : string) : string :=
  match s with
  | EmptyString => EmptyString
  | String c s' => if String.prefix "://" s then String.substring 2 (String.length s') s' else drop_scheme s'
  end.

Definition urlparse_path (url : string) : result string :=
  Val (drop_authority (drop_scheme url)).

Definition pdf_headers : gmap string string := {[ "Content-Type" := "application/pdf" ]}.

(** A world in which every service answers: the probe returns one
    header and each provider sends [reply]. *)
Definition answering (reply : string) : World := {|
  requests_head := fun _ => Val pdf_headers;
  openai_create := fun _ _ => Val [Some reply];
  anthropic_create := fun _ _ => Val [reply];
  requests_post := fun _ _ => Val (Response 200 reply);
  subprocess_run := fun _ => Val tt
|}.

(** A world without network: every request fails to connect. *)
Definition offline : World := {|
  requests_head := fun _ => Exc (RequestException "Connection refused");
  openai_create := fun _ _ => Exc (OtherError "openai.APIConnectionError" "Connection error.");
  anthropic_create := fun _ _ => Exc (OtherError "anthropic.APIConnectionError" "Connection error.");
  requests_post := fun _ _ => Exc (RequestException "Connection refused");
  subprocess_run := fun _ => Val tt
|}.

Definition target : string := "https://example.com/presentations/FUZZ".

End Demo.

(** ** Further concrete instances *)

Module Cases.

Definition bs : string := String "092"%char EmptyString.

(** [{}] *)
Definition empty_object_text : string := "{}".

(** [{"extensions": ".pdf"}]: a string where a list is expected. *)
Definition string_value_text : string :=
  "{" +:+ Demo.dq +:+ "extensions" +:+ Demo.dq +:+ ": " +:+
  Demo.dq +:+ ".pdf" +:+ Demo.dq +:+ "}".

Definition string_value : pyval := PDict {[ "extensions" := PStr ".pdf" ]}.

(** [{"extensions": [".php", 7]}]: an entry that is not a string. *)
Definition mixed_text : string :=
  "{" +:+ Demo.dq +:+ "extensions" +:+ Demo.dq +:+ ": [" +:+
  Demo.dq +:+ ".php" +:+ Demo.dq +:+ ", 7]}".

Definition mixed : pyval := PDict {[ "extensions" := PList [PStr ".php"; PInt 7] ]}.

(** The envelope of the local model around [Demo.two_extensions_text]:
    [{"response": "{\"extensions\": [\".pdf\", \".pptx\"]}"}] *)
Definition envelope_text : string :=
  "{" +:+ Demo.dq +:+ "response" +:+ Demo.dq +:+ ": " +:+ Demo.dq +:+
  "{" +:+ bs +:+ Demo.dq +:+ "extensions" +:+ bs +:+ Demo.dq +:+ ": [" +:+
  bs +:+ Demo.dq +:+ ".pdf" +:+ bs +:+ Demo.dq +:+ ", " +:+
  bs +:+ Demo.dq +:+ ".pptx" +:+ bs +:+ Demo.dq +:+ "]}" +:+ Demo.dq +:+ "}".

Definition envelope : pyval := PDict {[ "response" := PStr Demo.two_extensions_text ]}.

(** The graph of [json.loads] on these texts and on those of [Demo]. *)
Definition json_loads (s : string) : result pyval :=
  if String.eqb s empty_object_text then Val (PDict ∅)
  else if String.eqb s string_value_text then Val string_value
  else if String.eqb s mixed_text then Val mixed
  else if String.eqb s envelope_text then Val envelope
  else Demo.json_loads s.

(** A URL with an unclosed bracket, which [urlparse] rejects. *)
Definition bad_url : string := "http://[example.com/FUZZ".

Definition urlparse_path (url : string) : result string :=
  if String.eqb url bad_url then Exc (ValueError "Invalid IPv6 URL")
  else Demo.urlparse_path url.

(** A world whose OpenAI completion carries no text. *)
Definition wordless : World := {|
  requests_head := fun _ => Val Demo.pdf_headers;
  openai_create := fun _ _ => Val [None];
  anthropic_create := fun _ _ => Val [];
  requests_post := fun _ _ => Val (Response 500 "Internal Server Error");
  subprocess_run := fun _ => Val tt
|}.

(** A world in which the probe fails outside [requests]' own exception
    hierarchy. *)
Definition broken_probe : World := {|
  requests_head := fun _ => Exc (OtherError "urllib3.exceptions.LocationParseError"
                                   "Failed to parse");
  openai_create := fun _ _ => Val [Some Demo.two_extensions_text];
  anthropic_create := fun _ _ => Val [Demo.two_extensions_text];
  requests_post := fun _ _ => Val (Response 200 Demo.two_extensions_text);
  subprocess_run := fun _ => Val tt
|}.

(** A world where everything answers but [ffuf] is not installed. *)
Definition no_ffuf (reply : string) : World := {|
  requests_head := fun _ => Val Demo.pdf_headers;
  openai_create := fun _ _ => Val [Some reply];
  anthropic_create := fun _ _ => Val [reply];
  requests_post := fun _ _ => Val (Response 200 reply);
  subprocess_run := fun _ => Exc (OtherError "FileNotFoundError"
                                    "[Errno 2] No such file or directory: 'ffuf'")
|}.

End Cases.

(** * Properties *)

(** ** The trace monad *)

Lemma bind_lift_val {A B} (a : A) (f : A -> M B) : bind (lift (Val a)) f = f a.
Proof. unfold bind, lift. destruct (f a); reflexivity. Qed.

Lemma bind_lift_exc {A B} (e : exn) (f : A -> M B) : bind (lift (Exc e)) f = ([], Exc e).
Proof. reflexivity. Qed.

Lemma bind_ret {A B} (a : A) (f : A -> M B) : bind (ret a) f = f a.
Proof. apply bind_lift_val. Qed.

Lemma bind_emit {B} (ev : event) (f : unit -> M B) :
  bind (emit ev) f = (ev :: trace (f tt), outcome (f tt)).
Proof. unfold bind, emit, trace, outcome. destruct (f tt); reflexivity. Qed.

Lemma bind_val {A B} (t : list event) (a : A) (f : A -> M B) :
  bind (t, Val a) f = (t ++ trace (f a), outcome (f a)).
Proof. unfold bind, trace, outcome. destruct (f a); reflexivity. Qed.

Lemma bind_exc {A B} (t : list event) (e : exn) (f : A -> M B) :
  bind (t, Exc e) f = (t, Exc e).
Proof. reflexivity. Qed.

Lemma run_eta {A} (m : M A) : m = (trace m, outcome m).
Proof. destruct m; reflexivity. Qed.

(** ** Built-in operations *)

Example str_split_ex : str_split "/" "/presentations/FUZZ" = [""; "presentations"; "FUZZ"].
Proof. reflexivity. Qed.
Example str_remove_ex : str_remove "FUZZ" "http://a/FUFUZZZZ/xFUZZ" = "http://a/FUZZ/x".
Proof. reflexivity. Qed.
Example str_strip_ex : str_strip "  a b  " = "a b".
Proof. reflexivity. Qed.
Example py_slice_ex :
  py_slice_to (-1) [1; 2; 3] = [1; 2] /\ py_slice_to 2 [1; 2; 3] = [1; 2] /\
  py_slice_to (-5) [1; 2; 3] = [] /\ py_slice_to 7 [1; 2; 3] = [1; 2; 3].
Proof. repeat split; reflexivity. Qed.
Example py_getitem_ex :
  py_getitem [1; 2; 3] (-1) = Val 3 /\ py_getitem [1; 2; 3] 0 = Val 1 /\
  py_getitem [1; 2; 3] 3 = Exc (IndexError "list index out of range").
Proof. repeat split; reflexivity. Qed.
Example str_contains_ex :
  str_contains "FUZZ" "aFUZZb" = true /\ str_contains "FUZZ" "fuzz" = false.
Proof. split; reflexivity. Qed.

Lemma list_index_absent x l :
  ~ In x l -> exists msg, list_index x l = Exc (ValueError msg).
Proof.
  induction l as [|y l IH]; intros Hnot; simpl.
  - eauto.
  - destruct (String.eqb_spec y x) as [->|Hne].
    + exfalso. apply Hnot. now left.
    + destruct IH as [msg ->]; [|eauto]. intros Hin. apply Hnot. now right.
Qed.

Lemma list_index_first x l r :
  ~ In x l -> list_index x (l ++ x :: r) = Val (Z.of_nat (List.length l)).
Proof.
  induction l as [|y l IH]; intros Hnot; simpl.
  - now rewrite String.eqb_refl.
  - destruct (String.eqb_spec y x) as [->|Hne].
    + exfalso. apply Hnot. now left.
    + rewrite IH; [f_equal; lia|]. intros Hin. apply Hnot. now right.
Qed.

Lemma list_index_raises x l e : list_index x l = Exc e -> class_of e = C_ValueError.
Proof.
  induction l as [|y l IH]; simpl.
  - intros [= <-]. reflexivity.
  - destruct (String.eqb y x); [discriminate|].
    destruct (list_index x l); [discriminate|]. intros [= <-]. now apply IH.
Qed.

Lemma py_getitem_raises {A} (l : list A) i e :
  py_getitem l i = Exc e -> class_of e = C_IndexError.
Proof.
  unfold py_getitem.
  destruct (_ && _); [destruct (l !! _)|]; intros [= <-]; reflexivity.
Qed.

Lemma py_getitem_past_end {A} (l : list A) :
  exists msg, py_getitem l (Z.of_nat (List.length l)) = Exc (IndexError msg).
Proof.
  unfold py_getitem.
  destruct (Z.ltb_spec (Z.of_nat (List.length l)) 0); [lia|].
  rewrite Z.ltb_irrefl, andb_false_r. eauto.
Qed.

Lemma str_split_nonempty sep s : str_split sep s <> [].
Proof.
  destruct s as [|c s]; simpl; [discriminate|].
  destruct (Ascii.eqb c sep); [discriminate|].
  destruct (str_split sep s); discriminate.
Qed.

Lemma py_getitem_last {A} (l : list A) :
  l <> [] -> exists a, py_getitem l (-1) = Val a.
Proof.
  intros Hne. unfold py_getitem. change (-1 <? 0)%Z with true. cbv beta iota zeta.
  assert (0 < List.length l) by (destruct l; [congruence|simpl; lia]).
  replace (0 <=? -1 + Z.of_nat (List.length l))%Z with true
    by (symmetry; apply Z.leb_le; lia).
  replace (-1 + Z.of_nat (List.length l) <? Z.of_nat (List.length l))%Z with true
    by (symmetry; apply Z.ltb_lt; lia).
  cbn [andb]. destruct (l !! _) eqn:Hl; [eexists; reflexivity|].
  apply lookup_ge_None in Hl. lia.
Qed.

Lemma py_slice_to_nonneg {A} (n : Z) (l : list A) :
  (0 <= n)%Z -> py_slice_to n l = take (Z.to_nat n) l.
Proof. intros Hn. unfold py_slice_to. destruct (Z.leb_spec 0 n); [reflexivity|lia]. Qed.

Lemma py_slice_to_negative {A} (n : Z) (l : list A) :
  (n < 0)%Z -> py_slice_to n l = take (List.length l - Z.to_nat (- n)) l.
Proof.
  intros Hn. unfold py_slice_to. destruct (Z.leb_spec 0 n); [lia|].
  f_equal. lia.
Qed.

Lemma str_chars_slice (n : Z) (s : string) :
  str_chars (string_of_list_ascii (py_slice_to n (list_ascii_of_string s)))
  = py_slice_to n (str_chars s).
Proof.
  unfold str_chars. rewrite list_ascii_of_string_of_list_ascii.
  unfold py_slice_to. rewrite length_fmap.
  destruct (0 <=? n)%Z; now rewrite fmap_take.
Qed.

Lemma find_url_raises unknown e :
  find_url unknown = Exc e -> caught_by [C_ValueError; C_IndexError] e = true.
Proof.
  unfold find_url. destruct (list_index "-u" unknown) eqn:Hi.
  - intros Hg. apply py_getitem_raises in Hg. unfold caught_by. now rewrite Hg.
  - intros [= <-]. apply list_index_raises in Hi. unfold caught_by. now rewrite Hi.
Qed.

(** ** The header probe *)

Section Probe.

Variable world : World.
Variable url : string.

Lemma get_headers_ok headers :
  requests_head world url = Val headers ->
  get_headers world url = ([EHead url], Val headers).
Proof. intros H. unfold get_headers. rewrite bind_emit, H. reflexivity. Qed.

Lemma get_headers_recovers e :
  requests_head world url = Exc e ->
  caught_by [C_RequestException] e = true ->
  get_headers world url
  = ([EHead url; EPrint (OFmt "Error fetching headers: " e)], Val error_headers).
Proof.
  intros H Hc. unfold get_headers. rewrite bind_emit, H.
  unfold try_except. cbn [trace outcome lift fst snd]. rewrite Hc. reflexivity.
Qed.

Lemma get_headers_escapes e :
  requests_head world url = Exc e ->
  caught_by [C_RequestException] e = false ->
  get_headers world url = ([EHead url], Exc e).
Proof.
  intros H Hc. unfold get_headers. rewrite bind_emit, H.
  unfold try_except. cbn [trace outcome lift fst snd]. rewrite Hc. reflexivity.
Qed.

(** The probe sends exactly one request, whatever comes back, and does
    nothing else than print. *)
Lemma get_headers_trace :
  exists rest,
    trace (get_headers world url) = EHead url :: rest /\
    Forall (fun ev => is_diagnostic ev = true) rest.
Proof.
  destruct (requests_head world url) as [h|e] eqn:H.
  - rewrite (get_headers_ok _ H). exists []. split; [reflexivity|constructor].
  - destruct (caught_by [C_RequestException] e) eqn:Hc.
    + rewrite (get_headers_recovers _ H Hc). eexists. split; [reflexivity|].
      repeat constructor.
    + rewrite (get_headers_escapes _ H Hc). exists []. split; [reflexivity|constructor].
Qed.

End Probe.

Lemma diagnostics_count p (t : list event) :
  (forall ev, is_diagnostic ev = true -> p ev = false) ->
  Forall (fun ev => is_diagnostic ev = true) t ->
  count p t = 0.
Proof.
  intros Hp. unfold count. induction 1 as [|ev t Hev _ IH]; [reflexivity|].
  simpl. now rewrite (Hp _ Hev).
Qed.

Lemma diagnostic_not_head ev : is_diagnostic ev = true -> is_head ev = false.
Proof. now destruct ev. Qed.

Lemma diagnostic_not_call ev : is_diagnostic ev = true -> is_provider_call ev = false.
Proof. now destruct ev. Qed.

Lemma diagnostic_not_run ev : is_diagnostic ev = true -> is_run ev = false.
Proof. now destruct ev. Qed.

Lemma diagnostic_not_notice ev : is_diagnostic ev = true -> is_notice ev = false.
Proof. destruct ev as [[]| | | | |]; simpl; congruence. Qed.

Lemma diagnostic_not_parse_error ev : is_diagnostic ev = true -> is_parse_error ev = false.
Proof.
  destruct ev as [[]| | | | |]; try reflexivity; try discriminate.
  unfold is_diagnostic. now destruct (is_parse_error _).
Qed.

Lemma count_app p (t1 t2 : list event) : count p (t1 ++ t2) = count p t1 + count p t2.
Proof. unfold count. now rewrite List.filter_app, length_app. Qed.

Lemma count_cons p (ev : event) (t : list event) :
  count p (ev :: t) = (if p ev then 1 else 0) + count p t.
Proof. unfold count. simpl. now destruct (p ev). Qed.

Lemma count_zero p (t : list event) : count p t = 0 <-> Forall (fun ev => p ev = false) t.
Proof.
  unfold count. induction t as [|ev t IH]; simpl.
  - split; [constructor|reflexivity].
  - destruct (p ev) eqn:Hp; simpl.
    + split; [discriminate|]. intros H. inversion H; congruence.
    + rewrite IH. split; [now constructor|]. now inversion 1.
Qed.

Lemma warning_events_count p path :
  p (EPrint fuzz_warning) = false -> count p (warning_events path) = 0.
Proof.
  intros Hp. unfold warning_events. destruct (py_getitem _ _); [|reflexivity].
  destruct (negb _); [|reflexivity]. rewrite count_cons, Hp. reflexivity.
Qed.

(** ** The extension suggester *)

Section Suggester.

Variable json_loads : string -> result pyval.
Variable slice_hashable : bool.
Variable world : World.
Variables (url : string) (headers : gmap string string).
Variables (provider model_or_key : string) (n : Z).

Let the_prompt := Prompt url headers n.
Let asked := get_ai_extensions json_loads world url headers provider model_or_key n.

(** One completion request at most, first in the trace; after it the
    suggester only prints, and never the parse-error message. *)
Lemma get_ai_extensions_trace :
  exists rest,
    trace asked = completion_call provider model_or_key the_prompt ++ rest /\
    Forall (fun ev => is_diagnostic ev = true) rest.
Proof.
  subst asked the_prompt. unfold get_ai_extensions, completion_call.
  destruct (String.eqb provider "openai").
  { rewrite bind_emit. cbn [trace fst]. exists [].
    split; [|constructor]. cbn [app]. f_equal.
    destruct (openai_create _ _ _) as [choices|]; [|reflexivity].
    rewrite bind_lift_val.
    destruct (py_getitem choices 0) as [[c|]|]; reflexivity. }
  destruct (String.eqb provider "anthropic").
  { rewrite bind_emit. cbn [trace fst]. exists [].
    split; [|constructor]. cbn [app]. f_equal.
    destruct (anthropic_create _ _ _) as [content|]; [|reflexivity].
    rewrite bind_lift_val.
    destruct (py_getitem content 0); reflexivity. }
  destruct (String.eqb provider "ollama"); [|exists []; split; [reflexivity|constructor]].
  rewrite bind_emit. unfold try_except. cbn [trace outcome fst snd].
  set (body := bind (lift (requests_post _ _ _)) _).
  assert (Hb : trace body = []).
  { subst body. destruct (requests_post _ _ _) as [r|]; [|reflexivity].
    rewrite bind_lift_val.
    destruct (raise_for_status r); [|reflexivity]. rewrite bind_lift_val.
    destruct (json_loads _); [|reflexivity]. rewrite bind_lift_val.
    destruct (py_subscript _ _); [|reflexivity]. rewrite bind_lift_val.
    reflexivity. }
  rewrite Hb. destruct (outcome body) as [v|e].
  - exists []. split; [reflexivity|constructor].
  - destruct (caught_by _ e).
    + eexists. split; [reflexivity|]. repeat constructor.
    + exists []. split; [reflexivity|constructor].
Qed.

(** A transport failure of the local-model call is turned into [None]. *)
Lemma get_ai_extensions_ollama_down e :
  provider = "ollama" ->
  ollama_request world model_or_key the_prompt = Exc e ->
  caught_by [C_RequestException] e = true ->
  asked = ([EOllama model_or_key the_prompt;
            EPrint (OFmt "Error communicating with Ollama: " e)], Val PNone).
Proof.
  intros -> Hreq Hc. subst asked. unfold get_ai_extensions.
  cbn [String.eqb Ascii.eqb Bool.eqb]. cbv iota.
  rewrite bind_emit. unfold ollama_request in Hreq. fold the_prompt.
  destruct (requests_post world model_or_key the_prompt) as [r|e'].
  - rewrite bind_lift_val.
    destruct (raise_for_status r); [discriminate|]. injection Hreq as ->.
    unfold try_except. cbn [trace outcome fst snd lift bind]. rewrite Hc. reflexivity.
  - injection Hreq as ->. unfold try_except. cbn [trace outcome fst snd lift bind]. rewrite Hc. reflexivity.
Qed.

End Suggester.

(** ** The second [try] block of [main] *)

Section SecondTry.

Variable json_loads : string -> result pyval.
Variable slice_hashable : bool.
Variable world : World.
Variable args : Args.
Variables (url : string) (headers : gmap string string).
Variables (provider model_or_key : string).

Let asked :=
  get_ai_extensions json_loads world url headers provider model_or_key (max_extensions args).
Let suggested :=
  suggest json_loads slice_hashable world args url headers provider model_or_key.
Let guarded :=
  guarded_suggest json_loads slice_hashable world args url headers provider model_or_key.

Lemma suggest_none :
  outcome asked = Val PNone -> suggested = (trace asked, Val None).
Proof.
  intros H. subst suggested. unfold suggest. fold asked.
  rewrite (run_eta asked), H, bind_val. cbn. now rewrite app_nil_r.
Qed.

Lemma suggest_exc e :
  outcome asked = Exc e -> suggested = (trace asked, Exc e).
Proof.
  intros H. subst suggested. unfold suggest. fold asked.
  rewrite (run_eta asked), H. reflexivity.
Qed.

Lemma suggest_data data :
  outcome asked = Val data -> data <> PNone ->
  suggested
  = (trace asked ++ [EPrint (OVal data)],
     match extract slice_hashable (max_extensions args) data with
     | Val extensions => Val (Some extensions)
     | Exc e => Exc e
     end).
Proof.
  intros H Hd. subst suggested. unfold suggest. fold asked.
  rewrite (run_eta asked), H, bind_val.
  assert (Hk : forall k : M (option string),
             match data with PNone => ret None | _ => k end = k)
    by (intros k; destruct data; congruence).
  rewrite Hk. unfold print, extract. rewrite bind_emit.
  destruct (py_subscript data "extensions") as [listed|]; [|reflexivity].
  rewrite bind_lift_val.
  destruct (py_slice slice_hashable listed _) as [first|]; [|reflexivity].
  rewrite bind_lift_val.
  destruct (py_join "," first); reflexivity.
Qed.

(** The block sends the completion request and otherwise prints. *)
Lemma suggest_trace :
  exists rest,
    trace suggested
    = completion_call provider model_or_key (Prompt url headers (max_extensions args)) ++ rest /\
    Forall (fun ev => is_diagnostic ev = true) rest.
Proof.
  destruct (get_ai_extensions_trace json_loads world url headers provider
              model_or_key (max_extensions args)) as (rest & Ht & Hrest).
  fold asked in Ht.
  destruct (outcome asked) as [data|e] eqn:Ho.
  - assert (Hdata : data <> PNone ->
             exists rest', trace suggested
               = completion_call provider model_or_key
                   (Prompt url headers (max_extensions args)) ++ rest' /\
             Forall (fun ev => is_diagnostic ev = true) rest').
    { intros Hd. rewrite (suggest_data _ Ho Hd). cbn [trace fst].
      rewrite Ht, <- app_assoc. eexists. split; [reflexivity|].
      apply Forall_app. split; [exact Hrest|].
      repeat constructor. }
    destruct data; try (apply Hdata; discriminate).
    rewrite (suggest_none Ho). exists rest. now split.
  - rewrite (suggest_exc _ Ho). exists rest. now split.
Qed.

Lemma suggest_count p :
  (forall ev, is_provider_call ev = true -> p ev = false) ->
  (forall ev, is_diagnostic ev = true -> p ev = false) ->
  count p (trace suggested) = 0.
Proof.
  intros Hcall Hdiag. destruct suggest_trace as (rest & -> & Hrest).
  rewrite count_app, (diagnostics_count _ _ Hdiag Hrest).
  unfold completion_call.
  repeat (destruct (String.eqb _ _); [rewrite count_cons, Hcall; reflexivity|]).
  reflexivity.
Qed.

Lemma guarded_val v :
  outcome suggested = Val v -> guarded = (trace suggested, Val v).
Proof.
  intros H. subst guarded. unfold guarded_suggest. fold suggested.
  rewrite (run_eta suggested), H. reflexivity.
Qed.

Lemma guarded_caught e :
  outcome suggested = Exc e ->
  caught_by [C_JSONDecodeError; C_KeyError] e = true ->
  guarded = (trace suggested ++ [EPrint (parse_error e)], Val None).
Proof.
  intros H Hc. subst guarded. unfold guarded_suggest. fold suggested.
  rewrite (run_eta suggested), H. unfold try_except. rewrite Hc. reflexivity.
Qed.

Lemma guarded_escapes e :
  outcome suggested = Exc e ->
  caught_by [C_JSONDecodeError; C_KeyError] e = false ->
  guarded = (trace suggested, Exc e).
Proof.
  intros H Hc. subst guarded. unfold guarded_suggest. fold suggested.
  rewrite (run_eta suggested), H. unfold try_except. rewrite Hc. reflexivity.
Qed.

(** With its [except] clause the block still starts with the
    completion request. *)
Lemma guarded_trace :
  exists rest,
    trace guarded
    = completion_call provider model_or_key (Prompt url headers (max_extensions args)) ++ rest /\
    Forall (fun ev => is_diagnostic ev = true \/ exists e, ev = EPrint (parse_error e)) rest.
Proof.
  destruct suggest_trace as (rest & Ht & Hrest).
  assert (Hrest' : Forall (fun ev => is_diagnostic ev = true \/
                                     exists e, ev = EPrint (parse_error e)) rest)
    by (eapply Forall_impl; [exact Hrest|]; intros ev Hev; now left).
  destruct (outcome suggested) as [v|e] eqn:Ho.
  - rewrite (guarded_val _ Ho). eauto.
  - destruct (caught_by [C_JSONDecodeError; C_KeyError] e) eqn:Hc.
    + rewrite (guarded_caught _ Ho Hc). cbn [trace fst].
      rewrite Ht, <- app_assoc. eexists. split; [reflexivity|].
      apply Forall_app. split; [exact Hrest'|].
      constructor; [right; eauto|constructor].
    + rewrite (guarded_escapes _ Ho Hc). eauto.
Qed.

(** Events that are neither a completion request nor a line printed
    by the block do not occur in it. *)
Lemma guarded_count p :
  (forall ev, is_provider_call ev = true -> p ev = false) ->
  (forall ev, is_diagnostic ev = true -> p ev = false) ->
  (forall e, p (EPrint (parse_error e)) = false) ->
  count p (trace guarded) = 0.
Proof.
  intros Hcall Hdiag Hparse. destruct guarded_trace as (rest & -> & Hrest).
  rewrite count_app. replace (count p rest) with 0.
  - unfold completion_call.
    repeat (destruct (String.eqb _ _); [rewrite count_cons, Hcall; reflexivity|]).
    reflexivity.
  - symmetry. apply count_zero. eapply Forall_impl; [exact Hrest|].
    intros ev [Hev|[e ->]]; [now apply Hdiag|apply Hparse].
Qed.

End SecondTry.

(** ** The spine of [main]

    [main] stage by stage: each lemma fixes how the earlier stages went
    and gives the whole run as a trace and an outcome. *)

Lemma try_except_ret {A} (a : A) handlers h : try_except (ret a) handlers h = ret a.
Proof. reflexivity. Qed.

Section Run.

Variable json_loads : string -> result pyval.
Variable urlparse_path : string -> result string.
Variable slice_hashable : bool.
Variable environ : gmap string string.
Variable world : World.
Variable args : Args.
Variable unknown : list string.

Let run := main json_loads urlparse_path slice_hashable environ world args unknown.

Lemma main_no_url e :
  find_url unknown = Exc e -> run = ([EPrint url_error], Val tt).
Proof.
  intros H. subst run. unfold main. rewrite H, bind_lift_exc.
  unfold try_except at 1. rewrite (find_url_raises _ _ H). reflexivity.
Qed.

Section WithUrl.

Variable url : string.
Hypothesis Hurl : find_url unknown = Val url.

Lemma main_bad_url e :
  urlparse_path url = Exc e -> run = ([], Exc e).
Proof.
  intros H. subst run. unfold main.
  rewrite Hurl, bind_lift_val, try_except_ret, bind_ret, H. reflexivity.
Qed.

Variable path : string.
Hypothesis Hpath : urlparse_path url = Val path.

Let probe := get_headers world (str_remove "FUZZ" url).

Lemma main_spine :
  run
  = match outcome probe with
    | Exc e => (warning_events path ++ trace probe, Exc e)
    | Val headers =>
        match get_llm_provider environ with
        | Exc e => (warning_events path ++ trace probe, Exc e)
        | Val (provider, model_or_key) =>
            let guarded :=
              guarded_suggest json_loads slice_hashable world args url headers
                provider model_or_key in
            let ending := finish world args unknown (outcome guarded) in
            (warning_events path ++ trace probe ++ trace guarded ++ trace ending,
             outcome ending)
        end
    end.
Proof.
  subst run. unfold main.
  rewrite Hurl, bind_lift_val, try_except_ret, bind_ret, Hpath, bind_lift_val.
  unfold warning_events.
  destruct (py_getitem_last _ (str_split_nonempty "/" path)) as [last_part ->].
  rewrite bind_lift_val.
  assert (Hw : (if negb (str_contains "FUZZ" last_part)
                then print fuzz_warning else ret tt)
               = (if negb (str_contains "FUZZ" last_part)
                  then [EPrint fuzz_warning] else [], Val tt))
    by (destruct (negb _); reflexivity).
  rewrite Hw, bind_val. fold probe.
  destruct probe as [tp [headers|e]]; [|reflexivity].
  rewrite bind_val. cbn [trace outcome fst snd].
  destruct (get_llm_provider environ) as [[provider model_or_key]|e].
  2:{ rewrite bind_lift_exc. cbn [trace outcome fst snd]. now rewrite app_nil_r. }
  rewrite bind_lift_val.
  change (try_except (suggest _ _ _ _ _ _ _ _) _ _)
    with (guarded_suggest json_loads slice_hashable world args url headers
            provider model_or_key).
  destruct (guarded_suggest _ _ _ _ _ _ _ _) as [tg [[extensions|]|e]];
    cbn [bind trace outcome fst snd finish ret raise emit lift child_command];
    try destruct (subprocess_run _ _); cbn [trace outcome fst snd];
    rewrite ?app_nil_r; reflexivity.
Qed.

End WithUrl.

End Run.

(** ** Whole runs *)

Lemma finish_count world args unknown suggested p :
  (forall cmd, p (ERun cmd) = false) ->
  count p (trace (finish world args unknown suggested)) = 0.
Proof.
  intros Hp. destruct suggested as [[extensions|]|e]; try reflexivity.
  unfold finish. rewrite bind_emit. cbn [trace fst].
  rewrite count_cons, Hp. now destruct (subprocess_run _ _).
Qed.

(** The providers [get_llm_provider] can select are the ones the
    suggester knows: a completion request is sent for each. *)
Lemma selected_provider_is_called environ provider model_or_key p :
  get_llm_provider environ = Val (provider, model_or_key) ->
  exists call,
    completion_call provider model_or_key p = [call] /\ is_provider_call call = true.
Proof.
  unfold get_llm_provider.
  destruct (truthy_value (getenv environ "OLLAMA_MODEL"));
    [|destruct (truthy_value (getenv environ "ANTHROPIC_API_KEY"));
      [|destruct (truthy_value (getenv environ "OPENAI_API_KEY"))]];
    intros [= <- <-]; eexists; split; reflexivity.
Qed.

Section WholeRun.

Variable json_loads : string -> result pyval.
Variable urlparse_path : string -> result string.
Variable slice_hashable : bool.
Variable environ : gmap string string.
Variable world : World.
Variable args : Args.
Variable unknown : list string.
Variables (url path : string).
Hypothesis Hurl : find_url unknown = Val url.
Hypothesis Hpath : urlparse_path url = Val path.

Let run := main json_loads urlparse_path slice_hashable environ world args unknown.
Let probe := get_headers world (str_remove "FUZZ" url).

(** A run that has a URL starts with the warning, if any, and the
    probe. *)
Lemma run_starts_with_probe :
  exists rest, trace run = warning_events path ++ trace probe ++ rest.
Proof.
  subst run. rewrite (main_spine _ _ _ _ _ _ _ _ Hurl _ Hpath). fold probe.
  destruct (outcome probe) as [headers|e].
  - destruct (get_llm_provider environ) as [[provider model_or_key]|e].
    + cbn [trace fst]. eexists. reflexivity.
    + exists []. cbn [trace fst]. now rewrite app_nil_r.
  - exists []. cbn [trace fst]. now rewrite app_nil_r.
Qed.

(** Counting events of one kind over a run: the warning and the
    probe may contribute; completion requests, diagnostics, the
    parse-error message and the child process are counted only if
    [p] selects them. *)
Lemma run_count p :
  (forall ev, is_diagnostic ev = true -> p ev = false) ->
  (forall ev, is_provider_call ev = true -> p ev = false) ->
  (forall e, p (EPrint (parse_error e)) = false) ->
  (forall cmd, p (ERun cmd) = false) ->
  count p (trace run)
  = count p (warning_events path)
    + if p (EHead (str_remove "FUZZ" url)) then 1 else 0.
Proof.
  intros Hd Hc Hp Hr. subst run.
  rewrite (main_spine _ _ _ _ _ _ _ _ Hurl _ Hpath). fold probe.
  destruct (get_headers_trace world (str_remove "FUZZ" url)) as (rest & Ht & Hrest).
  fold probe in Ht.
  assert (Hprobe : count p (warning_events path ++ trace probe)
                   = count p (warning_events path)
                     + if p (EHead (str_remove "FUZZ" url)) then 1 else 0).
  { rewrite count_app, Ht, count_cons.
    rewrite (diagnostics_count _ _ Hd Hrest). lia. }
  destruct (outcome probe) as [headers|e]; [|exact Hprobe].
  destruct (get_llm_provider environ) as [[provider model_or_key]|e]; [|exact Hprobe].
  cbn [trace fst]. rewrite !app_assoc, !count_app, <- count_app, Hprobe.
  rewrite guarded_count, finish_count by assumption. lia.
Qed.

(** One probe in every run that has a URL. *)
Lemma one_probe_per_run : count is_head (trace run) = 1.
Proof.
  rewrite run_count, warning_events_count; try reflexivity.
  - apply diagnostic_not_head.
  - now intros [].
Qed.

(** With a provider selected, the completion request is sent with the
    URL and the headers the probe left. *)
Lemma run_calls_provider headers provider model_or_key :
  outcome probe = Val headers ->
  get_llm_provider environ = Val (provider, model_or_key) ->
  exists call after,
    completion_call provider model_or_key (Prompt url headers (max_extensions args))
      = [call] /\
    is_provider_call call = true /\
    trace run = warning_events path ++ trace probe ++ call :: after.
Proof.
  intros Hh Hsel. subst run.
  rewrite (main_spine _ _ _ _ _ _ _ _ Hurl _ Hpath). fold probe.
  rewrite Hh, Hsel. cbn [trace fst].
  destruct (guarded_trace json_loads slice_hashable world args url headers
              provider model_or_key) as (rest & -> & _).
  destruct (selected_provider_is_called _ _ _
              (Prompt url headers (max_extensions args)) Hsel) as (call & Hcall & Hkind).
  rewrite Hcall. exists call. eexists.
  split; [reflexivity|]. split; [exact Hkind|].
  reflexivity.
Qed.

End WholeRun.

(** ** From the decoded response to the child process *)

Lemma count_in p (ev : event) (t : list event) :
  In ev t -> p ev = true -> count p t <> 0.
Proof.
  intros Hin Hp Hc. apply count_zero in Hc.
  rewrite List.Forall_forall in Hc. apply Hc in Hin. congruence.
Qed.

Lemma as_str_items (items : list string) : mapM as_str (PStr <$> items) = Some items.
Proof.
  induction items as [|s items IH]; [reflexivity|].
  cbn. rewrite IH. reflexivity.
Qed.

(** A non-negative bound keeps the first entries. *)
Lemma extract_first_entries slice_hashable n data listed extensions :
  (0 <= n)%Z ->
  py_subscript data "extensions" = Val listed ->
  extract slice_hashable n data = Val extensions ->
  exists entries,
    first_entries (Z.to_nat n) listed = Some entries /\
    extensions = str_join "," entries.
Proof.
  intros Hn Hsub. unfold extract. rewrite Hsub.
  destruct listed as [| | | |s|l|d]; try discriminate; cbn [py_slice first_entries].
  - unfold py_join. rewrite str_chars_slice, py_slice_to_nonneg by exact Hn.
    intros [= <-]. eauto.
  - unfold py_join. rewrite py_slice_to_nonneg by exact Hn.
    destruct (mapM as_str _) as [items|]; [|discriminate].
    intros [= <-]. eauto.
  - destruct slice_hashable; discriminate.
Qed.

(** A list of strings is sliced and joined. *)
Lemma extract_list slice_hashable n data l items :
  py_subscript data "extensions" = Val (PList l) ->
  mapM as_str (py_slice_to n l) = Some items ->
  extract slice_hashable n data = Val (str_join "," items).
Proof.
  intros Hsub Hitems. unfold extract. rewrite Hsub.
  cbn [py_slice py_join]. now rewrite Hitems.
Qed.

Section ToChild.

Variable json_loads : string -> result pyval.
Variable urlparse_path : string -> result string.
Variable slice_hashable : bool.
Variable environ : gmap string string.
Variable world : World.
Variable args : Args.
Variable unknown : list string.

Let run := main json_loads urlparse_path slice_hashable environ world args unknown.

(** A decoded response from which the extensions can be extracted
    leads to the child process, which ends the run. *)
Lemma run_with_extensions url headers provider model_or_key data extensions :
  reaches_provider urlparse_path environ world unknown url headers provider model_or_key ->
  outcome (get_ai_extensions json_loads world url headers provider model_or_key
             (max_extensions args)) = Val data ->
  data <> PNone ->
  extract slice_hashable (max_extensions args) data = Val extensions ->
  exists before,
    run = (before ++ [ERun (child_command args unknown extensions)],
           subprocess_run world (child_command args unknown extensions)) /\
    count is_run before = 0.
Proof.
  intros (Hurl & [path Hpath] & Hheaders & Hsel) Hdata Hnone Hext.
  pose proof (suggest_data json_loads slice_hashable world args url headers
                provider model_or_key data Hdata Hnone) as Hsug.
  rewrite Hext in Hsug.
  pose proof (guarded_val json_loads slice_hashable world args url headers
                provider model_or_key (Some extensions)) as Hg.
  rewrite Hsug in Hg. specialize (Hg eq_refl). cbn [trace fst] in Hg.
  pose proof (guarded_count json_loads slice_hashable world args url headers
                provider model_or_key is_run) as Hcount.
  rewrite Hg in Hcount. cbn [trace fst] in Hcount.
  destruct (get_headers_trace world (str_remove "FUZZ" url)) as (rest & Ht & Hrest).
  subst run. rewrite (main_spine _ _ _ _ _ _ _ _ Hurl _ Hpath).
  rewrite Hheaders, Hsel. cbv zeta. rewrite Hg.
  cbn [trace outcome fst snd finish]. rewrite bind_emit.
  cbn [trace outcome fst snd lift].
  set (block := trace (get_ai_extensions json_loads world url headers provider
                         model_or_key (max_extensions args))
                ++ [EPrint (OVal data)]) in *.
  exists (warning_events path ++ trace (get_headers world (str_remove "FUZZ" url))
          ++ block). split.
  - f_equal. now rewrite <- !app_assoc.
  - rewrite !count_app, warning_events_count, Ht, count_cons by reflexivity.
    rewrite (diagnostics_count _ _ diagnostic_not_run Hrest).
    rewrite Hcount; [reflexivity| |apply diagnostic_not_run|reflexivity].
    now intros [].
Qed.

(** Conversely the child process is started only at the end of a run
    that went through every stage. *)
Lemma run_child_inv cmd :
  In (ERun cmd) (trace run) ->
  exists url headers provider model_or_key data extensions,
    reaches_provider urlparse_path environ world unknown url headers
      provider model_or_key /\
    outcome (get_ai_extensions json_loads world url headers provider model_or_key
               (max_extensions args)) = Val data /\
    data <> PNone /\
    extract slice_hashable (max_extensions args) data = Val extensions /\
    cmd = child_command args unknown extensions.
Proof.
  intros Hin. subst run.
  destruct (find_url unknown) as [url|e] eqn:Hurl.
  2:{ rewrite (main_no_url _ _ _ _ _ _ _ _ Hurl) in Hin.
      destruct Hin as [H|[]]. discriminate H. }
  destruct (urlparse_path url) as [path|e] eqn:Hpath.
  2:{ rewrite (main_bad_url _ _ _ _ _ _ _ _ Hurl _ Hpath) in Hin. destruct Hin. }
  rewrite (main_spine _ _ _ _ _ _ _ _ Hurl _ Hpath) in Hin.
  destruct (get_headers_trace world (str_remove "FUZZ" url)) as (rest & Ht & Hrest).
  assert (Hearly : ~ In (ERun cmd)
                     (warning_events path
                      ++ trace (get_headers world (str_remove "FUZZ" url)))).
  { intros H. apply (count_in is_run) in H; [|reflexivity]. apply H.
    rewrite count_app, warning_events_count, Ht, count_cons by reflexivity.
    now rewrite (diagnostics_count _ _ diagnostic_not_run Hrest). }
  destruct (outcome (get_headers world (str_remove "FUZZ" url)))
    as [headers|e] eqn:Hheaders; [|contradiction].
  destruct (get_llm_provider environ) as [[provider model_or_key]|e] eqn:Hsel;
    [|contradiction].
  cbv zeta in Hin. cbn [trace fst] in Hin.
  rewrite app_assoc in Hin. apply in_app_or in Hin as [Hin|Hin]; [contradiction|].
  apply in_app_or in Hin as [Hin|Hin].
  { exfalso. apply (count_in is_run) in Hin; [|reflexivity]. apply Hin.
    apply guarded_count; [now intros []|apply diagnostic_not_run|reflexivity]. }
  set (suggested := suggest json_loads slice_hashable world args url headers
                      provider model_or_key).
  assert (Hsome : exists extensions,
             outcome suggested = Val (Some extensions) /\
             cmd = child_command args unknown extensions).
  { destruct (outcome suggested) as [v|e] eqn:Ho.
    - rewrite (guarded_val _ _ _ _ _ _ _ _ _ Ho) in Hin.
      cbn [outcome snd finish] in Hin. destruct v as [extensions|].
      + rewrite bind_emit in Hin. cbn [trace fst] in Hin.
        destruct Hin as [[= <-]|Hin]; [eauto|].
        destruct (subprocess_run _ _); destruct Hin.
      + destruct Hin.
    - destruct (caught_by [C_JSONDecodeError; C_KeyError] e) eqn:Hc.
      + rewrite (guarded_caught _ _ _ _ _ _ _ _ _ Ho Hc) in Hin. destruct Hin.
      + rewrite (guarded_escapes _ _ _ _ _ _ _ _ _ Ho Hc) in Hin. destruct Hin. }
  destruct Hsome as (extensions & Ho & ->).
  set (asked := get_ai_extensions json_loads world url headers provider
                  model_or_key (max_extensions args)).
  exists url, headers, provider, model_or_key.
  destruct (outcome asked) as [data|e] eqn:Ha.
  - exists data, extensions.
    assert (Hnone : data <> PNone).
    { intros ->. subst suggested.
      rewrite (suggest_none _ _ _ _ _ _ _ _ Ha) in Ho. discriminate Ho. }
    subst suggested. rewrite (suggest_data _ _ _ _ _ _ _ _ _ Ha Hnone) in Ho.
    cbn [outcome snd] in Ho.
    destruct (extract slice_hashable (max_extensions args) data) as [x|];
      [|discriminate Ho].
    injection Ho as ->.
    repeat split; eauto.
  - subst suggested. rewrite (suggest_exc _ _ _ _ _ _ _ _ _ Ha) in Ho.
    discriminate Ho.
Qed.

End ToChild.

(** The end-to-end example of the specification: tokens
    [-u https://example.com/presentations/FUZZ], a probe that returns
    [{"Content-Type": "application/pdf"}], a provider that answers
    [{"extensions": [".pdf", ".pptx"]}] and the default count of 4. *)
Example end_to_end :
  main Demo.json_loads Demo.urlparse_path false {[ "ANTHROPIC_API_KEY" := "sk-ant" ]}
    (Demo.answering Demo.two_extensions_text) default_args ["-u"; Demo.target]
  = ([EHead "https://example.com/presentations/";
      EAnthropic "sk-ant" (Prompt Demo.target Demo.pdf_headers 4);
      EPrint (OVal Demo.two_extensions);
      ERun ["ffuf"; "-u"; "https://example.com/presentations/FUZZ"; "-e"; ".pdf,.pptx"]],
     Val tt).
Proof. vm_compute. reflexivity. Qed.

(** * The claims *)

(** ** C4: a missing URL *)

(** C4, amended.  When the pass-through list holds no [-u], or when
    the [-u] that [main] looks at (the first one) is the last token,
    the run prints the error message, starts no child process and
    returns normally: the trace is that single line and the outcome is
    a value, not an exception. *)
Theorem missing_url_is_reported
    json_loads urlparse_path slice_hashable environ world args unknown :
  ~ In "-u" unknown \/ (exists l, unknown = l ++ ["-u"] /\ ~ In "-u" l) ->
  main json_loads urlparse_path slice_hashable environ world args unknown
  = ([EPrint url_error], Val tt).
Proof.
  intros Hu.
  assert (Hfail : exists e, find_url unknown = Exc e).
  { unfold find_url. destruct Hu as [Hno|(l & -> & Hno)].
    - destruct (list_index_absent _ _ Hno) as [msg ->]. eauto.
    - rewrite (list_index_first _ _ [] Hno).
      destruct (py_getitem_past_end (l ++ ["-u"])) as [msg Hg].
      rewrite length_app, Nat.add_comm in Hg. cbn [List.length] in Hg.
      replace (Z.of_nat (List.length l) + 1)%Z
        with (Z.of_nat (1 + List.length l)) by lia.
      rewrite Hg. eauto. }
  destruct Hfail as [e He]. exact (main_no_url _ _ _ _ _ _ _ _ He).
Qed.

Lemma missing_url_is_reported_witness :
  main Demo.json_loads Demo.urlparse_path false {[ "OPENAI_API_KEY" := "sk" ]}
    (Demo.answering Demo.two_extensions_text) default_args ["-w"; "words.txt"; "-u"]
  = ([EPrint url_error], Val tt).
Proof.
  apply missing_url_is_reported.
  right. exists ["-w"; "words.txt"]. split; [reflexivity|].
  intros [H|[H|[]]]; discriminate H.
Defined.

(** The claim read literally, with any [-u] in last position, fails when
    an earlier [-u] carries the URL: the run goes on to start [ffuf]. *)
Lemma last_token_u_counterexample :
  let unknown := ["-u"; Demo.target; "-u"] in
  let run := main Demo.json_loads Demo.urlparse_path false {[ "OPENAI_API_KEY" := "sk" ]}
               (Demo.answering Demo.two_extensions_text) default_args unknown in
  List.last unknown "" = "-u" /\
  ~ In (EPrint url_error) (trace run) /\
  In (ERun ["ffuf"; "-u"; Demo.target; "-u"; "-e"; ".pdf,.pptx"]) (trace run).
Proof.
  vm_compute. split; [reflexivity|]. split.
  - intros [H|[H|[H|[H|[]]]]]; discriminate H.
  - do 3 right. left. reflexivity.
Qed.

(** ** C3: provider selection *)

(** C3, amended.  A signal counts when its variable is set to a
    non-empty value.  In that sense: [OLLAMA_MODEL] selects the
    local-model provider with the model name; failing that,
    [ANTHROPIC_API_KEY] selects provider B with the key; failing that,
    [OPENAI_API_KEY] selects provider A with the key; failing all three
    the configuration error is raised.  The result is one provider out
    of the three, or the error. *)
Theorem provider_precedence (environ : gmap string string) :
  let ollama := truthy_value (getenv environ "OLLAMA_MODEL") in
  let anthropic := truthy_value (getenv environ "ANTHROPIC_API_KEY") in
  let openai := truthy_value (getenv environ "OPENAI_API_KEY") in
  let selected := get_llm_provider environ in
  (forall model, ollama = Some model -> selected = Val ("ollama", model)) /\
  (forall key, ollama = None -> anthropic = Some key ->
     selected = Val ("anthropic", key)) /\
  (forall key, ollama = None -> anthropic = None -> openai = Some key ->
     selected = Val ("openai", key)) /\
  (ollama = None -> anthropic = None -> openai = None ->
     selected = Exc config_error) /\
  ((exists provider value,
      selected = Val (provider, value) /\
      In provider ["ollama"; "anthropic"; "openai"] /\
      forall other, selected = Val other -> other = (provider, value))
   \/ selected = Exc config_error).
Proof.
  cbv zeta. unfold get_llm_provider.
  destruct (truthy_value (getenv environ "OLLAMA_MODEL")) as [m|];
    [|destruct (truthy_value (getenv environ "ANTHROPIC_API_KEY")) as [ka|];
      [|destruct (truthy_value (getenv environ "OPENAI_API_KEY")) as [ko|]]].
  all: repeat split; try congruence; try discriminate.
  all: try (left; do 2 eexists; split; [reflexivity|]; split;
            [cbn; tauto|intros other [= <-]; reflexivity]).
  right. reflexivity.
Qed.

Lemma provider_precedence_witness :
  get_llm_provider {[ "OLLAMA_MODEL" := "llama3"; "ANTHROPIC_API_KEY" := "sk-ant" ]}
    = Val ("ollama", "llama3") /\
  get_llm_provider {[ "OPENAI_API_KEY" := "sk"; "ANTHROPIC_API_KEY" := "sk-ant" ]}
    = Val ("anthropic", "sk-ant") /\
  get_llm_provider {[ "OPENAI_API_KEY" := "sk" ]} = Val ("openai", "sk") /\
  get_llm_provider ∅ = Exc config_error.
Proof.
  split; [|split; [|split]].
  - apply (proj1 (provider_precedence _)). reflexivity.
  - apply (proj1 (proj2 (provider_precedence _))); reflexivity.
  - apply (proj1 (proj2 (proj2 (provider_precedence _)))); reflexivity.
  - apply (proj1 (proj2 (proj2 (proj2 (provider_precedence _))))); reflexivity.
Defined.

(** A variable that is present but empty is passed over: here
    [OLLAMA_MODEL] is set, and provider B is selected. *)
Lemma present_but_empty_counterexample :
  let environ : gmap string string :=
    {[ "OLLAMA_MODEL" := ""; "ANTHROPIC_API_KEY" := "sk-ant" ]} in
  getenv environ "OLLAMA_MODEL" = Some "" /\
  get_llm_provider environ = Val ("anthropic", "sk-ant") /\
  get_llm_provider environ <> Val ("ollama", "").
Proof. vm_compute. split; [reflexivity|split; [reflexivity|discriminate]]. Qed.

(** ** C1: no provider configured *)

(** C1, amended.  With none of the three variables set, a run that
    reads a URL after [-u], parses it and gets through the header probe
    sends exactly one header probe and then fails with the configuration
    error; no completion request is sent and no child process is
    started. *)
Theorem config_error_follows_probe
    json_loads urlparse_path slice_hashable environ world args unknown url path :
  let run := main json_loads urlparse_path slice_hashable environ world args unknown in
  getenv environ "OLLAMA_MODEL" = None ->
  getenv environ "ANTHROPIC_API_KEY" = None ->
  getenv environ "OPENAI_API_KEY" = None ->
  find_url unknown = Val url ->
  urlparse_path url = Val path ->
  (forall e, requests_head world (str_remove "FUZZ" url) = Exc e ->
             caught_by [C_RequestException] e = true) ->
  outcome run = Exc config_error /\
  count is_head (trace run) = 1 /\
  count is_provider_call (trace run) = 0 /\
  count is_run (trace run) = 0.
Proof.
  intros run Ho Ha Hk Hurl Hpath Hprobe. subst run.
  rewrite (main_spine json_loads urlparse_path slice_hashable environ world args
             unknown url Hurl path Hpath).
  assert (Hsel : get_llm_provider environ = Exc config_error).
  { unfold get_llm_provider. now rewrite Ho, Ha, Hk. }
  rewrite Hsel.
  destruct (get_headers_trace world (str_remove "FUZZ" url)) as (rest & Ht & Hrest).
  assert (Hval : exists headers,
             outcome (get_headers world (str_remove "FUZZ" url)) = Val headers).
  { destruct (requests_head world (str_remove "FUZZ" url)) as [h|e] eqn:Hh.
    - rewrite (get_headers_ok _ _ _ Hh). eauto.
    - rewrite (get_headers_recovers _ _ _ Hh (Hprobe _ eq_refl)). eauto. }
  destruct Hval as [headers ->]. cbn [trace outcome fst snd].
  rewrite !count_app, Ht.
  rewrite !warning_events_count by reflexivity.
  rewrite !count_cons.
  rewrite (diagnostics_count _ _ diagnostic_not_head Hrest),
    (diagnostics_count _ _ diagnostic_not_call Hrest),
    (diagnostics_count _ _ diagnostic_not_run Hrest).
  repeat split; reflexivity.
Qed.

Lemma config_error_follows_probe_witness :
  let run := main Demo.json_loads Demo.urlparse_path false ∅
               (Demo.answering Demo.two_extensions_text) default_args
               ["-u"; Demo.target] in
  outcome run = Exc config_error /\
  count is_head (trace run) = 1 /\
  count is_provider_call (trace run) = 0 /\
  count is_run (trace run) = 0.
Proof.
  apply (config_error_follows_probe Demo.json_loads Demo.urlparse_path false ∅
           (Demo.answering Demo.two_extensions_text) default_args
           ["-u"; Demo.target] Demo.target "/presentations/FUZZ");
    try reflexivity.
  intros e H. discriminate H.
Defined.

(** The header probe is sent before the provider is looked up: with an
    empty environment the run fails with the configuration error, but
    only after one HTTP request. *)
Lemma probe_precedes_config_error_counterexample :
  let environ : gmap string string := ∅ in
  let run := main Demo.json_loads Demo.urlparse_path false environ
               (Demo.answering Demo.two_extensions_text) default_args
               ["-u"; Demo.target] in
  (getenv environ "OLLAMA_MODEL" = None /\
   getenv environ "ANTHROPIC_API_KEY" = None /\
   getenv environ "OPENAI_API_KEY" = None) /\
  run = ([EHead "https://example.com/presentations/"], Exc config_error) /\
  ~ Forall (fun ev => is_http ev = false) (trace run).
Proof.
  vm_compute. repeat split. intros H. inversion H. discriminate.
Qed.

(** ** C5: a failing header probe *)

(** C5.  When the HEAD request raises a [requests] exception, the probe
    catches it, prints the diagnostic and returns exactly
    [{"Header": "Error fetching headers."}]; the run does not stop
    there: the request was made once, never again, and the provider the
    environment selects is sent a prompt that carries this very
    mapping. *)
Theorem probe_failure_degrades
    json_loads urlparse_path slice_hashable environ world args unknown url path e :
  let base_url := str_remove "FUZZ" url in
  let run := main json_loads urlparse_path slice_hashable environ world args unknown in
  find_url unknown = Val url ->
  urlparse_path url = Val path ->
  requests_head world base_url = Exc e ->
  caught_by [C_RequestException] e = true ->
  get_headers world base_url
  = ([EHead base_url; EPrint (OFmt "Error fetching headers: " e)],
     Val ({[ "Header" := "Error fetching headers." ]} : gmap string string)) /\
  count is_head (trace run) = 1 /\
  (exists rest,
     trace run
     = warning_events path
       ++ [EHead base_url; EPrint (OFmt "Error fetching headers: " e)] ++ rest) /\
  (forall provider model_or_key,
     get_llm_provider environ = Val (provider, model_or_key) ->
     exists call,
       completion_call provider model_or_key
         (Prompt url {[ "Header" := "Error fetching headers." ]} (max_extensions args))
       = [call] /\
       In call (trace run)) /\
  (forall error, get_llm_provider environ = Exc error -> outcome run = Exc error).
Proof.
  intros base_url run Hurl Hpath Hhead Hcaught.
  pose proof (get_headers_recovers _ _ _ Hhead Hcaught) as Hprobe.
  split; [exact Hprobe|]. split; [|split; [|split]].
  - exact (one_probe_per_run json_loads _ slice_hashable environ world args _ _ _
             Hurl Hpath).
  - destruct (run_starts_with_probe json_loads _ slice_hashable environ world args
                _ _ _ Hurl Hpath) as [rest Hrest].
    fold base_url in Hrest. rewrite Hprobe in Hrest. exists rest. exact Hrest.
  - intros provider model_or_key Hsel.
    destruct (run_calls_provider json_loads _ slice_hashable environ world args
                _ _ _ Hurl Hpath error_headers provider model_or_key)
      as (call & after & Hcall & _ & Ht).
    + fold base_url. now rewrite Hprobe.
    + exact Hsel.
    + exists call. split; [exact Hcall|]. fold run in Ht. rewrite Ht.
      apply in_or_app. right. apply in_or_app. right. now left.
  - intros error Hsel. subst run.
    rewrite (main_spine _ _ _ _ _ _ _ _ Hurl _ Hpath).
    fold base_url. now rewrite Hprobe, Hsel.
Qed.

Lemma probe_failure_degrades_witness :
  let run := main Demo.json_loads Demo.urlparse_path false {[ "OLLAMA_MODEL" := "llama3" ]}
               Demo.offline default_args ["-u"; Demo.target] in
  get_headers Demo.offline "https://example.com/presentations/"
  = ([EHead "https://example.com/presentations/";
      EPrint (OFmt "Error fetching headers: " (RequestException "Connection refused"))],
     Val ({[ "Header" := "Error fetching headers." ]} : gmap string string)) /\
  count is_head (trace run) = 1 /\
  In (EOllama "llama3"
        (Prompt Demo.target {[ "Header" := "Error fetching headers." ]} 4))
     (trace run).
Proof.
  destruct (probe_failure_degrades Demo.json_loads Demo.urlparse_path false
              {[ "OLLAMA_MODEL" := "llama3" ]} Demo.offline default_args
              ["-u"; Demo.target] Demo.target "/presentations/FUZZ"
              (RequestException "Connection refused")
              eq_refl eq_refl eq_refl eq_refl)
    as (Hprobe & Hcount & _ & Hcall & _).
  split; [exact Hprobe|]. split; [exact Hcount|].
  destruct (Hcall "ollama" "llama3" eq_refl) as (call & Heq & Hin).
  injection Heq as <-. exact Hin.
Defined.

(** ** C7: the local model cannot be reached *)

(** C7.  When the request to the local model raises a [requests]
    exception, or comes back with an error status, the suggester prints
    the diagnostic and returns [None]; [main] then returns normally
    without starting the child process.  The parse-error message is not
    printed on this path. *)
Theorem ollama_failure_ends_run
    json_loads urlparse_path slice_hashable environ world args unknown
    url headers model e :
  let run := main json_loads urlparse_path slice_hashable environ world args unknown in
  let request := Prompt url headers (max_extensions args) in
  reaches_provider urlparse_path environ world unknown url headers "ollama" model ->
  ollama_request world model request = Exc e ->
  caught_by [C_RequestException] e = true ->
  get_ai_extensions json_loads world url headers "ollama" model (max_extensions args)
  = ([EOllama model request; EPrint (OFmt "Error communicating with Ollama: " e)],
     Val PNone) /\
  outcome run = Val tt /\
  count is_run (trace run) = 0 /\
  count is_parse_error (trace run) = 0 /\
  (exists before,
     trace run
     = before ++ [EOllama model request;
                  EPrint (OFmt "Error communicating with Ollama: " e)]).
Proof.
  intros run request (Hurl & [path Hpath] & Hheaders & Hsel) Hreq Hcaught.
  pose proof (get_ai_extensions_ollama_down json_loads world url headers "ollama"
                model (max_extensions args) e eq_refl Hreq Hcaught) as Hasked.
  split; [exact Hasked|].
  assert (Hguarded :
            guarded_suggest json_loads slice_hashable world args url headers "ollama" model
            = ([EOllama model request;
                EPrint (OFmt "Error communicating with Ollama: " e)], Val None)).
  { rewrite (guarded_val json_loads slice_hashable world args url headers "ollama"
               model None);
      rewrite (suggest_none json_loads slice_hashable world args url headers
                 "ollama" model); now rewrite ?Hasked. }
  assert (Hrun : run
                 = (warning_events path
                    ++ trace (get_headers world (str_remove "FUZZ" url))
                    ++ [EOllama model request;
                        EPrint (OFmt "Error communicating with Ollama: " e)],
                    Val tt)).
  { subst run. rewrite (main_spine _ _ _ _ _ _ _ _ Hurl _ Hpath).
    rewrite Hheaders, Hsel. cbv zeta. rewrite Hguarded.
    cbn [trace outcome fst snd finish ret]. now rewrite app_nil_r. }
  rewrite Hrun. cbn [trace outcome fst snd].
  split; [reflexivity|].
  destruct (get_headers_trace world (str_remove "FUZZ" url)) as (rest & -> & Hrest).
  split; [|split].
  - rewrite !count_app, warning_events_count, !count_cons by reflexivity.
    rewrite (diagnostics_count _ _ diagnostic_not_run Hrest). reflexivity.
  - rewrite !count_app, warning_events_count, !count_cons by reflexivity.
    rewrite (diagnostics_count _ _ diagnostic_not_parse_error Hrest). reflexivity.
  - eexists. rewrite !app_assoc. reflexivity.
Qed.

Lemma ollama_failure_ends_run_witness :
  let run := main Demo.json_loads Demo.urlparse_path false {[ "OLLAMA_MODEL" := "llama3" ]}
               Demo.offline default_args ["-u"; Demo.target] in
  outcome run = Val tt /\ count is_run (trace run) = 0 /\
  count is_parse_error (trace run) = 0.
Proof.
  destruct (ollama_failure_ends_run Demo.json_loads Demo.urlparse_path false
              {[ "OLLAMA_MODEL" := "llama3" ]} Demo.offline default_args
              ["-u"; Demo.target] Demo.target error_headers "llama3"
              (RequestException "Connection refused"))
    as (_ & Hout & Hrun & Hparse & _).
  - repeat split; try reflexivity. exists "/presentations/FUZZ". reflexivity.
  - reflexivity.
  - reflexivity.
  - exact (conj Hout (conj Hrun Hparse)).
Defined.

(** ** C8: the placeholder warning *)

(** C8.  When the last segment of the URL path does not contain ["FUZZ"]
    the run prints the warning and continues: the header probe follows
    immediately, and the provider that the environment selects is sent
    its completion request.  When the segment contains ["FUZZ"] the
    warning does not appear anywhere in the trace. *)
Theorem fuzz_warning_is_not_fatal
    json_loads urlparse_path slice_hashable environ world args unknown
    url path last_part :
  let run := main json_loads urlparse_path slice_hashable environ world args unknown in
  let base_url := str_remove "FUZZ" url in
  find_url unknown = Val url ->
  urlparse_path url = Val path ->
  py_getitem (str_split "/" path) (-1) = Val last_part ->
  (str_contains "FUZZ" last_part = false ->
     (exists rest, trace run = EPrint fuzz_warning :: EHead base_url :: rest) /\
     (forall headers provider model_or_key,
        outcome (get_headers world base_url) = Val headers ->
        get_llm_provider environ = Val (provider, model_or_key) ->
        exists call after,
          is_provider_call call = true /\
          completion_call provider model_or_key
            (Prompt url headers (max_extensions args)) = [call] /\
          trace run
          = EPrint fuzz_warning :: trace (get_headers world base_url) ++ call :: after)) /\
  (str_contains "FUZZ" last_part = true ->
     ~ In (EPrint fuzz_warning) (trace run) /\
     exists rest, trace run = EHead base_url :: rest).
Proof.
  intros run base_url Hurl Hpath Hlast.
  destruct (run_starts_with_probe json_loads _ slice_hashable environ world args
              _ _ _ Hurl Hpath) as [rest Hrest].
  fold run base_url in Hrest.
  destruct (get_headers_trace world base_url) as (prints & Hprobe & _).
  unfold warning_events in Hrest. rewrite Hlast in Hrest.
  split; intros Hfuzz; rewrite Hfuzz in Hrest; cbn [negb] in Hrest.
  - split.
    + rewrite Hrest, Hprobe. eexists. reflexivity.
    + intros headers provider model_or_key Hheaders Hsel.
      destruct (run_calls_provider json_loads _ slice_hashable environ world args
                  _ _ _ Hurl Hpath headers provider model_or_key Hheaders Hsel)
        as (call & after & Hcall & Hkind & Ht).
      fold run base_url in Ht. unfold warning_events in Ht.
      rewrite Hlast, Hfuzz in Ht. exists call, after. now repeat split.
  - split.
    + assert (Hcount : count is_notice (trace run) = 0).
      { subst run.
        rewrite (run_count json_loads _ slice_hashable environ world args
                   _ _ _ Hurl Hpath); try reflexivity.
        - unfold warning_events. now rewrite Hlast, Hfuzz.
        - apply diagnostic_not_notice.
        - now intros []. }
      apply count_zero in Hcount. intros Hin.
      rewrite List.Forall_forall in Hcount. apply Hcount in Hin. discriminate Hin.
    + rewrite Hrest, Hprobe. eexists. reflexivity.
Qed.


Lemma fuzz_warning_is_not_fatal_witness :
  let environ : gmap string string := {[ "ANTHROPIC_API_KEY" := "sk-ant" ]} in
  let world := Demo.answering Demo.two_extensions_text in
  let plain := main Demo.json_loads Demo.urlparse_path false environ world
                 default_args ["-u"; "https://example.com/docs/index"] in
  let marked := main Demo.json_loads Demo.urlparse_path false environ world
                  default_args ["-u"; Demo.target] in
  (exists rest,
     trace plain
     = EPrint fuzz_warning :: EHead "https://example.com/docs/index" :: rest) /\
  ~ In (EPrint fuzz_warning) (trace marked).
Proof.
  split.
  - destruct (fuzz_warning_is_not_fatal Demo.json_loads Demo.urlparse_path false
                {[ "ANTHROPIC_API_KEY" := "sk-ant" ]}
                (Demo.answering Demo.two_extensions_text) default_args
                ["-u"; "https://example.com/docs/index"]
                "https://example.com/docs/index" "/docs/index" "index"
                eq_refl eq_refl eq_refl) as [Hplain _].
    exact (proj1 (Hplain eq_refl)).
  - destruct (fuzz_warning_is_not_fatal Demo.json_loads Demo.urlparse_path false
                {[ "ANTHROPIC_API_KEY" := "sk-ant" ]}
                (Demo.answering Demo.two_extensions_text) default_args
                ["-u"; Demo.target] Demo.target "/presentations/FUZZ" "FUZZ"
                eq_refl eq_refl eq_refl) as [_ Hmarked].
    exact (proj1 (Hmarked eq_refl)).
Defined.

(** ** C2: the command line of the child process *)

(** C2, amended.  With a maximum count [N >= 0], whenever a run starts
    the child process it has decoded a response with an ["extensions"]
    entry, and the command line is the [ffuf] path, then every
    pass-through token in order, then [-e], then the first [N] entries
    of that value, in the order given, joined by commas.  Entries are
    neither deduplicated nor checked. *)
Theorem child_command_line
    json_loads urlparse_path slice_hashable environ world args unknown cmd :
  let run := main json_loads urlparse_path slice_hashable environ world args unknown in
  (0 <= max_extensions args)%Z ->
  In (ERun cmd) (trace run) ->
  exists url headers provider model_or_key data listed entries,
    reaches_provider urlparse_path environ world unknown url headers
      provider model_or_key /\
    outcome (get_ai_extensions json_loads world url headers provider model_or_key
               (max_extensions args)) = Val data /\
    py_subscript data "extensions" = Val listed /\
    first_entries (Z.to_nat (max_extensions args)) listed = Some entries /\
    cmd = [ffuf_path args] ++ unknown ++ ["-e"; str_join "," entries].
Proof.
  intros run Hn Hin.
  destruct (run_child_inv json_loads urlparse_path slice_hashable environ world
              args unknown cmd Hin)
    as (url & headers & provider & model_or_key & data & extensions
        & Hreach & Hdata & _ & Hext & ->).
  destruct (py_subscript data "extensions") as [listed|e] eqn:Hsub.
  2:{ unfold extract in Hext. rewrite Hsub in Hext. discriminate Hext. }
  destruct (extract_first_entries _ _ _ _ _ Hn Hsub Hext) as (entries & Hentries & ->).
  exists url, headers, provider, model_or_key, data, listed, entries.
  repeat split; try assumption; apply Hreach.
Qed.

(** The response [{"extensions": [".pdf", ".ppt", ".pptx", ".doc"]}]
    with [--max-extensions 2]: the flag value is [.pdf,.ppt]. *)
Lemma child_command_line_witness :
  let args := {| ffuf_path := "ffuf"; max_extensions := 2 |} in
  let unknown := ["-u"; Demo.target] in
  let run := main Demo.json_loads Demo.urlparse_path false {[ "OPENAI_API_KEY" := "sk" ]}
               (Demo.answering Demo.four_extensions_text) args unknown in
  In (ERun ["ffuf"; "-u"; Demo.target; "-e"; ".pdf,.ppt"]) (trace run) /\
  exists listed entries,
    py_subscript Demo.four_extensions "extensions" = Val listed /\
    first_entries 2 listed = Some entries /\
    ["ffuf"; "-u"; Demo.target; "-e"; ".pdf,.ppt"]
    = ["ffuf"] ++ unknown ++ ["-e"; str_join "," entries].
Proof.
  intros args unknown run.
  assert (Hin : In (ERun ["ffuf"; "-u"; Demo.target; "-e"; ".pdf,.ppt"]) (trace run))
    by (vm_compute; do 3 right; left; reflexivity).
  split; [exact Hin|].
  destruct (child_command_line Demo.json_loads Demo.urlparse_path false
              {[ "OPENAI_API_KEY" := "sk" ]} (Demo.answering Demo.four_extensions_text)
              args unknown _ ltac:(cbn; lia) Hin)
    as (url & headers & provider & model_or_key & data & listed & entries
        & (Hurl & _ & Hheaders & Hsel) & Hdata & Hsub & Hentries & Hcmd).
  injection Hurl as <-. injection Hsel as <- <-.
  assert (headers = Demo.pdf_headers) as -> by (injection Hheaders as <-; reflexivity).
  injection Hdata as <-.
  exists listed, entries. repeat split; assumption.
Defined.

(** A negative count is not a count of leading entries: with
    [--max-extensions -1] and four suggestions the flag value holds
    three of them, where the first [-1] entries would be none. *)
Lemma negative_count_counterexample :
  let args := {| ffuf_path := "ffuf"; max_extensions := -1 |} in
  let unknown := ["-u"; Demo.target] in
  let run := main Demo.json_loads Demo.urlparse_path false {[ "OPENAI_API_KEY" := "sk" ]}
               (Demo.answering Demo.four_extensions_text) args unknown in
  let listed := PList [PStr ".pdf"; PStr ".ppt"; PStr ".pptx"; PStr ".doc"] in
  py_subscript Demo.four_extensions "extensions" = Val listed /\
  In (ERun ["ffuf"; "-u"; Demo.target; "-e"; ".pdf,.ppt,.pptx"]) (trace run) /\
  first_entries (Z.to_nat (max_extensions args)) listed = Some [] /\
  ~ In (ERun (["ffuf"] ++ unknown ++ ["-e"; str_join "," []])) (trace run).
Proof.
  vm_compute. split; [reflexivity|]. split; [do 3 right; left; reflexivity|].
  split; [reflexivity|].
  intros [H|[H|[H|[H|[]]]]]; discriminate H.
Qed.

(** ** C10: an empty selection and a negative count *)

(** C10.  A decoded response whose ["extensions"] list is cut down to
    nothing (a count of 0, an empty list) does not stop the run: the
    child process is started with [-e] followed by the empty string.
    With a negative count [n] the flag value is made of all entries but
    the last [|n|]. *)
Theorem empty_selection_and_negative_count
    json_loads urlparse_path slice_hashable environ world args unknown
    url headers provider model_or_key data l :
  let run := main json_loads urlparse_path slice_hashable environ world args unknown in
  let n := max_extensions args in
  let invoked (extensions : string) :=
    exists before,
      run = (before ++ [ERun ([ffuf_path args] ++ unknown ++ ["-e"; extensions])],
             subprocess_run world ([ffuf_path args] ++ unknown ++ ["-e"; extensions])) /\
      count is_run before = 0 in
  reaches_provider urlparse_path environ world unknown url headers provider model_or_key ->
  outcome (get_ai_extensions json_loads world url headers provider model_or_key n)
  = Val data ->
  py_subscript data "extensions" = Val (PList l) ->
  (py_slice_to n l = [] -> invoked "") /\
  ((n < 0)%Z ->
   py_slice_to n l = take (List.length l - Z.to_nat (- n)) l /\
   forall items,
     mapM as_str (take (List.length l - Z.to_nat (- n)) l) = Some items ->
     invoked (str_join "," items)).
Proof.
  intros run n invoked Hreach Hdata Hsub.
  assert (Hnone : data <> PNone) by (intros ->; discriminate Hsub).
  assert (Hgo : forall items,
             mapM as_str (py_slice_to n l) = Some items -> invoked (str_join "," items)).
  { intros items Hitems.
    exact (run_with_extensions json_loads urlparse_path slice_hashable environ world
             args unknown url headers provider model_or_key data _ Hreach Hdata Hnone
             (extract_list slice_hashable n data l items Hsub Hitems)). }
  split.
  - intros Hempty. apply (Hgo []). now rewrite Hempty.
  - intros Hneg. pose proof (py_slice_to_negative n l Hneg) as Hslice.
    split; [exact Hslice|]. intros items Hitems. apply Hgo. now rewrite Hslice.
Qed.

Lemma empty_selection_and_negative_count_witness :
  let unknown := ["-u"; Demo.target] in
  let environ : gmap string string := {[ "OPENAI_API_KEY" := "sk" ]} in
  let world := Demo.answering Demo.four_extensions_text in
  let none := main Demo.json_loads Demo.urlparse_path false environ world
                {| ffuf_path := "ffuf"; max_extensions := 0 |} unknown in
  let negative := main Demo.json_loads Demo.urlparse_path false environ world
                    {| ffuf_path := "ffuf"; max_extensions := -3 |} unknown in
  (exists before,
     none = (before ++ [ERun ["ffuf"; "-u"; Demo.target; "-e"; ""]], Val tt)) /\
  (exists before,
     negative = (before ++ [ERun ["ffuf"; "-u"; Demo.target; "-e"; ".pdf"]], Val tt)).
Proof.
  split.
  - destruct (empty_selection_and_negative_count Demo.json_loads Demo.urlparse_path
                false {[ "OPENAI_API_KEY" := "sk" ]}
                (Demo.answering Demo.four_extensions_text)
                {| ffuf_path := "ffuf"; max_extensions := 0 |} ["-u"; Demo.target]
                Demo.target Demo.pdf_headers "openai" "sk" Demo.four_extensions
                [PStr ".pdf"; PStr ".ppt"; PStr ".pptx"; PStr ".doc"])
      as [Hempty _].
    + repeat split; try reflexivity. exists "/presentations/FUZZ". reflexivity.
    + reflexivity.
    + reflexivity.
    + destruct (Hempty eq_refl) as (before & Hrun & _). exists before. exact Hrun.
  - destruct (empty_selection_and_negative_count Demo.json_loads Demo.urlparse_path
                false {[ "OPENAI_API_KEY" := "sk" ]}
                (Demo.answering Demo.four_extensions_text)
                {| ffuf_path := "ffuf"; max_extensions := -3 |} ["-u"; Demo.target]
                Demo.target Demo.pdf_headers "openai" "sk" Demo.four_extensions
                [PStr ".pdf"; PStr ".ppt"; PStr ".pptx"; PStr ".doc"])
      as [_ Hnegative].
    + repeat split; try reflexivity. exists "/presentations/FUZZ". reflexivity.
    + reflexivity.
    + reflexivity.
    + destruct Hnegative as [_ Hitems]; [reflexivity|].
      destruct (Hitems [".pdf"] eq_refl) as (before & Hrun & _).
      exists before. exact Hrun.
Defined.

(** ** C6: responses that cannot be used *)

(** What holds of C6: an exception of class [JSONDecodeError] or
    [KeyError] raised while the response is obtained or taken apart is
    reported with the parse-error message, the run returns normally and
    no child process is started. *)
Lemma parse_failure_is_reported
    json_loads urlparse_path slice_hashable environ world args unknown
    url headers provider model_or_key e :
  let run := main json_loads urlparse_path slice_hashable environ world args unknown in
  reaches_provider urlparse_path environ world unknown url headers provider model_or_key ->
  outcome (suggest json_loads slice_hashable world args url headers provider
             model_or_key) = Exc e ->
  caught_by [C_JSONDecodeError; C_KeyError] e = true ->
  (exists before, trace run = before ++ [EPrint (parse_error e)]) /\
  outcome run = Val tt /\
  count is_run (trace run) = 0.
Proof.
  intros run (Hurl & [path Hpath] & Hheaders & Hsel) Hsug Hcaught.
  pose proof (guarded_caught _ _ _ _ _ _ _ _ _ Hsug Hcaught) as Hg.
  assert (Hrun : run
                 = (warning_events path
                    ++ trace (get_headers world (str_remove "FUZZ" url))
                    ++ trace (suggest json_loads slice_hashable world args url headers
                                provider model_or_key)
                    ++ [EPrint (parse_error e)], Val tt)).
  { subst run. rewrite (main_spine _ _ _ _ _ _ _ _ Hurl _ Hpath).
    rewrite Hheaders, Hsel. cbv zeta. rewrite Hg.
    cbn [trace outcome fst snd finish ret]. now rewrite app_nil_r. }
  split; [|split].
  - rewrite Hrun. cbn [trace fst]. eexists. now rewrite !app_assoc.
  - now rewrite Hrun.
  - rewrite Hrun. cbn [trace fst].
    destruct (get_headers_trace world (str_remove "FUZZ" url)) as (rest & -> & Hrest).
    rewrite !count_app, warning_events_count, !count_cons by reflexivity.
    rewrite (diagnostics_count _ _ diagnostic_not_run Hrest).
    rewrite suggest_count; [reflexivity| |apply diagnostic_not_run].
    now intros [].
Qed.

(** A text that does not decode, from either remote provider. *)
Lemma malformed_text_raises json_loads slice_hashable world args url headers key reply msg :
  json_loads reply = Exc (JSONDecodeError msg) ->
  anthropic_create world key (Prompt url headers (max_extensions args)) = Val [reply] ->
  outcome (suggest json_loads slice_hashable world args url headers "anthropic" key)
  = Exc (JSONDecodeError msg).
Proof.
  intros Hjson Hreply. unfold suggest, get_ai_extensions.
  cbn [String.eqb Ascii.eqb Bool.eqb]. cbv iota.
  rewrite bind_emit, Hreply, bind_lift_val.
  change (py_getitem [reply] 0) with (Val reply).
  rewrite bind_lift_val, Hjson. reflexivity.
Qed.

(** An object without the key. *)
Lemma missing_key_raises json_loads slice_hashable world args url headers key reply d :
  json_loads reply = Val (PDict d) ->
  d !! "extensions" = None ->
  anthropic_create world key (Prompt url headers (max_extensions args)) = Val [reply] ->
  outcome (suggest json_loads slice_hashable world args url headers "anthropic" key)
  = Exc (KeyError (KStr "extensions")).
Proof.
  intros Hjson Hkey Hreply. unfold suggest, get_ai_extensions.
  cbn [String.eqb Ascii.eqb Bool.eqb]. cbv iota.
  rewrite bind_emit, Hreply, bind_lift_val.
  change (py_getitem [reply] 0) with (Val reply).
  rewrite bind_lift_val, Hjson. cbn [lift bind outcome snd trace fst].
  unfold print. cbn [emit bind py_subscript lift]. rewrite Hkey. reflexivity.
Qed.

(** C6 at a response that is valid JSON but not an object: the provider
    answers [[".php", ".html"]].  Subscripting the list with ["extensions"]
    raises [TypeError], which the [except] clause does not name: the
    exception leaves [main] and the parse-error message is never
    printed. *)
Theorem array_response_escapes :
  let run := main Demo.json_loads Demo.urlparse_path false {[ "OPENAI_API_KEY" := "sk" ]}
               (Demo.answering Demo.bare_list_text) default_args ["-u"; Demo.target] in
  Demo.json_loads Demo.bare_list_text = Val (PList [PStr ".php"; PStr ".html"]) /\
  run = ([EHead "https://example.com/presentations/";
          EOpenAI "sk" (Prompt Demo.target Demo.pdf_headers 4);
          EPrint (OVal (PList [PStr ".php"; PStr ".html"]))],
         Exc (TypeError "list indices must be integers or slices, not str")) /\
  count is_parse_error (trace run) = 0.
Proof. vm_compute. repeat split. Qed.

(** The JSON text [null] decodes to [None], which [main] takes for the
    sign of a failed local-model call: the run ends without a word. *)
Lemma null_response_is_silent :
  main Demo.json_loads Demo.urlparse_path false {[ "OPENAI_API_KEY" := "sk" ]}
    (Demo.answering "null") default_args ["-u"; Demo.target]
  = ([EHead "https://example.com/presentations/";
      EOpenAI "sk" (Prompt Demo.target Demo.pdf_headers 4)], Val tt).
Proof. vm_compute. reflexivity. Qed.

(** ** C9: exceptions that leave the run *)

(** C9 at a failing call to a remote provider: with [OPENAI_API_KEY]
    set and no network, the client raises its connection error inside
    [get_ai_extensions]; nothing there catches it, the [except] clause
    of [main] names other classes, and the exception ends the run. *)
Theorem remote_provider_failure_escapes :
  let run := main Demo.json_loads Demo.urlparse_path false {[ "OPENAI_API_KEY" := "sk" ]}
               Demo.offline default_args ["-u"; Demo.target] in
  openai_create Demo.offline "sk" (Prompt Demo.target error_headers 4)
  = Exc (OtherError "openai.APIConnectionError" "Connection error.") /\
  run = ([EHead "https://example.com/presentations/";
          EPrint (OFmt "Error fetching headers: " (RequestException "Connection refused"));
          EOpenAI "sk" (Prompt Demo.target error_headers 4)],
         Exc (OtherError "openai.APIConnectionError" "Connection error.")).
Proof. vm_compute. split; reflexivity. Qed.

(** The same for any exception of the two remote clients that is
    neither a [JSONDecodeError] nor a [KeyError]. *)
Lemma remote_exception_escapes
    json_loads urlparse_path slice_hashable environ world args unknown
    url headers provider key e :
  let run := main json_loads urlparse_path slice_hashable environ world args unknown in
  reaches_provider urlparse_path environ world unknown url headers provider key ->
  (provider = "openai" /\
   openai_create world key (Prompt url headers (max_extensions args)) = Exc e) \/
  (provider = "anthropic" /\
   anthropic_create world key (Prompt url headers (max_extensions args)) = Exc e) ->
  caught_by [C_JSONDecodeError; C_KeyError] e = false ->
  outcome run = Exc e.
Proof.
  intros run (Hurl & [path Hpath] & Hheaders & Hsel) Hcall Hcaught.
  assert (Hasked : outcome (get_ai_extensions json_loads world url headers provider key
                              (max_extensions args)) = Exc e).
  { unfold get_ai_extensions.
    destruct Hcall as [[-> Hc]|[-> Hc]]; cbn [String.eqb Ascii.eqb Bool.eqb]; cbv iota;
      rewrite bind_emit, Hc; reflexivity. }
  pose proof (suggest_exc json_loads slice_hashable world args url headers provider key
                e Hasked) as Hsug.
  pose proof (guarded_escapes json_loads slice_hashable world args url headers provider
                key e) as Hg.
  rewrite Hsug in Hg. specialize (Hg eq_refl Hcaught).
  subst run. rewrite (main_spine _ _ _ _ _ _ _ _ Hurl _ Hpath).
  rewrite Hheaders, Hsel. cbv zeta. rewrite Hg. reflexivity.
Qed.

(** * Further properties of the program *)

(** ** Text operations *)

Lemma str_remove_absent old s :
  str_contains old s = false -> str_remove old s = s.
Proof.
  unfold str_remove. induction s as [|c s IH]; [reflexivity|].
  cbn [str_contains]. intros H. apply orb_false_iff in H as [Hp Hs].
  cbn [str_remove_go]. rewrite Hp. now rewrite IH.
Qed.

Lemma prefix_fuzz_window c a b :
  String.prefix "FUZZ" (String c (a +:+ "FUZ"))
  = String.prefix "FUZZ" (String c (a +:+ "FUZZ" +:+ b)).
Proof.
  destruct a as [|x [|y [|z [|w r]]]]; reflexivity.
Qed.

Lemma str_remove_first a b :
  str_contains "FUZZ" (a +:+ "FUZ") = false ->
  str_remove "FUZZ" (a +:+ "FUZZ" +:+ b) = a +:+ str_remove "FUZZ" b.
Proof.
  unfold str_remove. induction a as [|c a IH].
  - intros _. destruct b; reflexivity.
  - change (String c a +:+ "FUZ") with (String c (a +:+ "FUZ")).
    change (String c a +:+ "FUZZ" +:+ b) with (String c (a +:+ "FUZZ" +:+ b)).
    change (String c a +:+ str_remove_go "FUZZ" 0 b)
      with (String c (a +:+ str_remove_go "FUZZ" 0 b)).
    cbn [str_contains]. intros H.
    apply orb_false_iff in H as [Hp Hs].
    cbn [str_remove_go]. rewrite <- prefix_fuzz_window, Hp. now rewrite IH.
Qed.

Lemma str_split_no_sep sep s :
  ~ In sep (list_ascii_of_string s) -> str_split sep s = [s].
Proof.
  induction s as [|c s IH]; [reflexivity|]. cbn [list_ascii_of_string str_split].
  intros H. destruct (Ascii.eqb_spec c sep) as [->|Hne].
  - exfalso. apply H. now left.
  - rewrite IH; [reflexivity|]. intros Hin. apply H. now right.
Qed.

Lemma str_split_after_sep sep a b :
  exists h t,
    str_split sep (a +:+ String sep b) = h :: t /\ t <> [] /\
    last t = last (str_split sep b).
Proof.
  induction a as [|c a (h & t & E & Ht & Hl)].
  - change ("" +:+ String sep b) with (String sep b). cbn [str_split].
    rewrite Ascii.eqb_refl. exists "", (str_split sep b).
    split; [reflexivity|]. split; [apply str_split_nonempty|reflexivity].
  - change (String c a +:+ String sep b) with (String c (a +:+ String sep b)).
    cbn [str_split]. rewrite E. destruct (Ascii.eqb c sep).
    + exists "", (h :: t). split; [reflexivity|]. split; [discriminate|].
      rewrite <- Hl. destruct t; [congruence|reflexivity].
    + exists (String c h), t. now repeat split.
Qed.

Lemma py_getitem_minus_one {A} (l : list A) a :
  last l = Some a -> py_getitem l (-1) = Val a.
Proof.
  intros Hl. destruct (py_getitem_last l) as [a' Ha].
  { intros ->. discriminate Hl. }
  rewrite Ha. f_equal. unfold py_getitem in Ha.
  change (-1 <? 0)%Z with true in Ha. cbv beta iota zeta in Ha.
  destruct (_ && _); [|discriminate Ha].
  rewrite last_lookup in Hl.
  replace (Z.to_nat (-1 + Z.of_nat (List.length l))) with (pred (List.length l)) in Ha by lia.
  rewrite Hl in Ha. now injection Ha.
Qed.

Lemma last_segment a b :
  ~ In "/"%char (list_ascii_of_string b) ->
  py_getitem (str_split "/" (a +:+ String "/" b)) (-1) = Val b.
Proof.
  intros Hb. apply py_getitem_minus_one.
  destruct (str_split_after_sep "/" a b) as (h & t & -> & Ht & Hl).
  rewrite str_split_no_sep in Hl by exact Hb.
  destruct t; [congruence|]. exact Hl.
Qed.

(** ** Counting the external calls of a run *)

Section Calls.

Variable json_loads : string -> result pyval.
Variable urlparse_path : string -> result string.
Variable slice_hashable : bool.
Variable environ : gmap string string.
Variable world : World.
Variable args : Args.
Variable unknown : list string.

Let run := main json_loads urlparse_path slice_hashable environ world args unknown.

Lemma completion_call_count provider model_or_key p :
  count is_provider_call (completion_call provider model_or_key p) <= 1 /\
  count is_head (completion_call provider model_or_key p) = 0 /\
  count is_run (completion_call provider model_or_key p) = 0.
Proof.
  unfold completion_call.
  repeat (destruct (String.eqb _ _); [cbn; lia|]). cbn. lia.
Qed.

Lemma finish_run_count suggested :
  count is_run (trace (finish world args unknown suggested)) <= 1.
Proof.
  destruct suggested as [[extensions|]|e]; cbn; lia.
Qed.

Lemma guarded_call_count url headers provider model_or_key :
  count is_provider_call
    (trace (guarded_suggest json_loads slice_hashable world args url headers
              provider model_or_key)) <= 1.
Proof.
  destruct (guarded_trace json_loads slice_hashable world args url headers
              provider model_or_key) as (rest & -> & Hrest).
  rewrite count_app.
  assert (Hzero : count is_provider_call rest = 0).
  { apply count_zero. eapply Forall_impl; [exact Hrest|].
    intros ev [Hev|[e ->]]; [now apply diagnostic_not_call|reflexivity]. }
  pose proof (completion_call_count provider model_or_key
                (Prompt url headers (max_extensions args))). lia.
Qed.

(** No stage is repeated: a run sends at most one header probe and at
    most one completion request, and starts at most one child process. *)
Lemma run_call_bounds :
  count is_head (trace run) <= 1 /\
  count is_provider_call (trace run) <= 1 /\
  count is_run (trace run) <= 1.
Proof.
  subst run. destruct (find_url unknown) as [url|e] eqn:Hurl.
  2:{ rewrite (main_no_url _ _ _ _ _ _ _ _ Hurl). cbn. lia. }
  destruct (urlparse_path url) as [path|e] eqn:Hpath.
  2:{ rewrite (main_bad_url _ _ _ _ _ _ _ _ Hurl _ Hpath). cbn. lia. }
  split.
  { rewrite (one_probe_per_run json_loads _ slice_hashable environ world args
               _ _ _ Hurl Hpath). lia. }
  rewrite (main_spine _ _ _ _ _ _ _ _ Hurl _ Hpath).
  destruct (get_headers_trace world (str_remove "FUZZ" url)) as (rest & Ht & Hrest).
  assert (Hearly : forall p,
             p (EPrint fuzz_warning) = false ->
             p (EHead (str_remove "FUZZ" url)) = false ->
             (forall ev, is_diagnostic ev = true -> p ev = false) ->
             count p (warning_events path) = 0 /\
             count p (trace (get_headers world (str_remove "FUZZ" url))) = 0).
  { intros p Hw Hh Hd. split; [now apply warning_events_count|].
    rewrite Ht, count_cons, Hh. now rewrite (diagnostics_count _ _ Hd Hrest). }
  destruct (Hearly is_provider_call eq_refl eq_refl diagnostic_not_call) as [Hcw Hcp].
  destruct (Hearly is_run eq_refl eq_refl diagnostic_not_run) as [Hrw Hrp].
  destruct (outcome (get_headers world (str_remove "FUZZ" url))) as [headers|e];
    [|cbn [trace fst]; rewrite !count_app; lia].
  destruct (get_llm_provider environ) as [[provider model_or_key]|e];
    [|cbn [trace fst]; rewrite !count_app; lia].
  cbv zeta. cbn [trace fst]. rewrite !count_app, Hcw, Hcp, Hrw, Hrp.
  rewrite (finish_count _ _ _ _ is_provider_call) by reflexivity.
  rewrite (guarded_count _ _ _ _ _ _ _ _ is_run);
    [|now intros []|apply diagnostic_not_run|reflexivity].
  pose proof (guarded_call_count url headers provider model_or_key).
  pose proof (finish_run_count
                (outcome (guarded_suggest json_loads slice_hashable world args url
                            headers provider model_or_key))).
  lia.
Qed.

Lemma one_call_when_reached url headers provider model_or_key :
  reaches_provider urlparse_path environ world unknown url headers provider model_or_key ->
  count is_provider_call (trace run) = 1.
Proof.
  intros (Hurl & [path Hpath] & Hheaders & Hsel).
  destruct (run_calls_provider json_loads _ slice_hashable environ world args
              _ _ _ Hurl Hpath headers provider model_or_key Hheaders Hsel)
    as (call & after & _ & Hkind & Ht).
  pose proof run_call_bounds as (_ & Hle & _).
  fold run in Ht. rewrite Ht in Hle |- *.
  rewrite !count_app, count_cons, Hkind in Hle |- *. lia.
Qed.

End Calls.

(** ** Locating the URL *)

(** X1.  [main] reads the URL from the token that follows the first
    [-u], and from nowhere else: the lookup succeeds with [url] exactly
    when the pass-through list is some [l], then [-u], then [url], then
    some [r], with no [-u] in [l]. *)
Theorem url_follows_first_u (unknown : list string) (url : string) :
  find_url unknown = Val url <->
  exists l r, unknown = l ++ "-u" :: url :: r /\ ~ In "-u" l.
Proof.
  split.
  - revert url. unfold find_url.
    assert (Hidx : forall l i,
               list_index "-u" l = Val i ->
               exists a b, l = a ++ "-u" :: b /\ ~ In "-u" a /\
                           i = Z.of_nat (List.length a)).
    { induction l as [|y l IH]; cbn [list_index]; [discriminate|]. intros i.
      destruct (String.eqb_spec y "-u") as [->|Hne].
      - intros [= <-]. exists [], l. repeat split. intros [].
      - destruct (list_index "-u" l) as [j|] eqn:Hj; [|discriminate].
        intros [= <-]. destruct (IH j eq_refl) as (a & b & -> & Ha & ->).
        exists (y :: a), b. repeat split.
        + intros [H|H]; [congruence|contradiction].
        + cbn [List.length]. lia. }
    intros url. destruct (list_index "-u" unknown) as [i|] eqn:Hi; [|discriminate].
    destruct (Hidx _ _ Hi) as (a & b & -> & Ha & ->). unfold py_getitem.
    destruct (_ <? 0)%Z eqn:Hneg; [apply Z.ltb_lt in Hneg; lia|].
    destruct (_ && _); [|discriminate].
    replace (Z.to_nat (Z.of_nat (List.length a) + 1)) with (List.length a + 1) by lia.
    rewrite lookup_app_r by lia.
    replace (List.length a + 1 - List.length a) with 1 by lia.
    destruct b as [|u r]; [discriminate|]. cbn. intros [= <-]. eauto.
  - intros (l & r & -> & Hl). unfold find_url.
    rewrite (list_index_first _ _ _ Hl). unfold py_getitem.
    destruct (_ <? 0)%Z eqn:Hneg; [apply Z.ltb_lt in Hneg; lia|].
    rewrite length_app. cbn [List.length].
    replace (0 <=? Z.of_nat (List.length l) + 1)%Z with true
      by (symmetry; apply Z.leb_le; lia).
    replace (Z.of_nat (List.length l) + 1 <? Z.of_nat (List.length l + S (S (List.length r))))%Z
      with true by (symmetry; apply Z.ltb_lt; lia).
    cbn [andb].
    replace (Z.to_nat (Z.of_nat (List.length l) + 1)) with (List.length l + 1) by lia.
    rewrite lookup_app_r by lia.
    replace (List.length l + 1 - List.length l) with 1 by lia. reflexivity.
Qed.

Lemma url_follows_first_u_witness :
  find_url ["-w"; "words.txt"; "-u"; Demo.target; "-t"; "40"; "-u"; "other"]
  = Val Demo.target.
Proof.
  apply url_follows_first_u.
  exists ["-w"; "words.txt"], ["-t"; "40"; "-u"; "other"].
  split; [reflexivity|]. intros [H|[H|[]]]; discriminate H.
Defined.

(** ** The probed URL and the warning *)

Section ProbedUrl.

Variable json_loads : string -> result pyval.
Variable urlparse_path : string -> result string.
Variable slice_hashable : bool.
Variable environ : gmap string string.
Variable world : World.
Variable args : Args.
Variable unknown : list string.
Variables (url path : string).
Hypothesis Hurl : find_url unknown = Val url.
Hypothesis Hpath : urlparse_path url = Val path.

Let run := main json_loads urlparse_path slice_hashable environ world args unknown.

Lemma run_probes base_url :
  str_remove "FUZZ" url = base_url ->
  In (EHead base_url) (trace run) /\
  forall other, In (EHead other) (trace run) -> other = base_url.
Proof.
  intros <-. subst run.
  destruct (run_starts_with_probe json_loads _ slice_hashable environ world args
              _ _ _ Hurl Hpath) as [rest Hrest].
  destruct (get_headers_trace world (str_remove "FUZZ" url)) as (prints & Hprobe & _).
  rewrite Hprobe in Hrest. split.
  - rewrite Hrest. apply in_or_app. right. now left.
  - intros other Hin.
    destruct (decide (other = str_remove "FUZZ" url)) as [|Hne]; [assumption|].
    exfalso.
    set (p := fun ev => match ev with
                        | EHead u => bool_decide (u = other)
                        | _ => false
                        end).
    apply (count_in p _ _ Hin); [now apply bool_decide_eq_true_2|].
    rewrite (run_count json_loads _ slice_hashable environ world args _ _ _ Hurl Hpath).
    + rewrite warning_events_count by reflexivity.
      change (p (EHead (str_remove "FUZZ" url)))
        with (bool_decide (str_remove "FUZZ" url = other)).
      now rewrite bool_decide_eq_false_2 by congruence.
    + now intros [[]| | | | |].
    + now intros [].
    + reflexivity.
    + reflexivity.
Qed.

Lemma run_warns last_part :
  py_getitem (str_split "/" path) (-1) = Val last_part ->
  In (EPrint fuzz_warning) (trace run) <-> str_contains "FUZZ" last_part = false.
Proof.
  intros Hlast. subst run. split.
  - intros Hin. destruct (str_contains "FUZZ" last_part) eqn:Hfuzz; [|reflexivity].
    exfalso. apply (count_in is_notice _ _ Hin eq_refl).
    rewrite (run_count json_loads _ slice_hashable environ world args _ _ _ Hurl Hpath);
      try reflexivity.
    + unfold warning_events. now rewrite Hlast, Hfuzz.
    + apply diagnostic_not_notice.
    + now intros [].
  - intros Hfuzz.
    destruct (run_starts_with_probe json_loads _ slice_hashable environ world args
                _ _ _ Hurl Hpath) as [rest ->].
    unfold warning_events. rewrite Hlast, Hfuzz. now left.
Qed.

End ProbedUrl.

(** X2.  A URL in which ["FUZZ"] does not occur is probed as it stands:
    the one HEAD request of the run goes to the URL itself. *)
Theorem url_without_placeholder_is_probed_unchanged
    json_loads urlparse_path slice_hashable environ world args unknown url path :
  let run := main json_loads urlparse_path slice_hashable environ world args unknown in
  find_url unknown = Val url ->
  urlparse_path url = Val path ->
  str_contains "FUZZ" url = false ->
  In (EHead url) (trace run) /\
  forall other, In (EHead other) (trace run) -> other = url.
Proof.
  intros run Hurl Hpath Hfuzz.
  exact (run_probes json_loads _ slice_hashable environ world args _ _ _ Hurl Hpath
           url (str_remove_absent "FUZZ" url Hfuzz)).
Qed.

Lemma url_without_placeholder_is_probed_unchanged_witness :
  In (EHead "https://example.com/docs/index")
     (trace (main Demo.json_loads Demo.urlparse_path false {[ "OPENAI_API_KEY" := "sk" ]}
               (Demo.answering Demo.two_extensions_text) default_args
               ["-u"; "https://example.com/docs/index"])).
Proof.
  apply (url_without_placeholder_is_probed_unchanged Demo.json_loads Demo.urlparse_path
           false {[ "OPENAI_API_KEY" := "sk" ]} (Demo.answering Demo.two_extensions_text)
           default_args ["-u"; "https://example.com/docs/index"]
           "https://example.com/docs/index" "/docs/index"); reflexivity.
Defined.

(** X3.  The placeholder is cut out of the URL wherever it stands: for
    a URL [before ++ "FUZZ" ++ after] whose first placeholder is the one
    shown and whose [after] holds none, the HEAD request goes to
    [before ++ after]. *)
Theorem placeholder_is_cut_out
    json_loads urlparse_path slice_hashable environ world args unknown
    before after path :
  let url := before +:+ "FUZZ" +:+ after in
  let run := main json_loads urlparse_path slice_hashable environ world args unknown in
  find_url unknown = Val url ->
  urlparse_path url = Val path ->
  str_contains "FUZZ" (before +:+ "FUZ") = false ->
  str_contains "FUZZ" after = false ->
  In (EHead (before +:+ after)) (trace run) /\
  forall other, In (EHead other) (trace run) -> other = before +:+ after.
Proof.
  intros url run Hurl Hpath Hbefore Hafter.
  apply (run_probes json_loads _ slice_hashable environ world args _ _ _ Hurl Hpath).
  subst url. rewrite (str_remove_first _ _ Hbefore).
  now rewrite (str_remove_absent _ _ Hafter).
Qed.

Lemma placeholder_is_cut_out_witness :
  In (EHead "https://example.com/files/.bak")
     (trace (main Demo.json_loads Demo.urlparse_path false {[ "OPENAI_API_KEY" := "sk" ]}
               (Demo.answering Demo.two_extensions_text) default_args
               ["-u"; "https://example.com/files/FUZZ.bak"])).
Proof.
  apply (placeholder_is_cut_out Demo.json_loads Demo.urlparse_path
           false {[ "OPENAI_API_KEY" := "sk" ]} (Demo.answering Demo.two_extensions_text)
           default_args ["-u"; "https://example.com/files/FUZZ.bak"]
           "https://example.com/files/" ".bak" "/files/FUZZ.bak"); reflexivity.
Defined.

(** X4.  Whether the warning is printed depends on the text after the
    last slash of the URL path and on nothing else: for a path
    [dirs ++ "/" ++ name] with no slash in [name], the warning appears
    in the run exactly when ["FUZZ"] does not occur in [name]. *)
Theorem warning_looks_at_text_after_last_slash
    json_loads urlparse_path slice_hashable environ world args unknown
    url dirs name :
  let run := main json_loads urlparse_path slice_hashable environ world args unknown in
  find_url unknown = Val url ->
  urlparse_path url = Val (dirs +:+ String "/" name) ->
  ~ In "/"%char (list_ascii_of_string name) ->
  In (EPrint fuzz_warning) (trace run) <-> str_contains "FUZZ" name = false.
Proof.
  intros run Hurl Hpath Hname.
  exact (run_warns json_loads _ slice_hashable environ world args _ _ _ Hurl Hpath
           name (last_segment dirs name Hname)).
Qed.

Lemma warning_looks_at_text_after_last_slash_witness :
  In (EPrint fuzz_warning)
     (trace (main Demo.json_loads Demo.urlparse_path false {[ "OPENAI_API_KEY" := "sk" ]}
               (Demo.answering Demo.two_extensions_text) default_args
               ["-u"; "https://example.com/FUZZ/index"])).
Proof.
  apply (warning_looks_at_text_after_last_slash Demo.json_loads Demo.urlparse_path
           false {[ "OPENAI_API_KEY" := "sk" ]} (Demo.answering Demo.two_extensions_text)
           default_args ["-u"; "https://example.com/FUZZ/index"]
           "https://example.com/FUZZ/index" "/FUZZ" "index"); try reflexivity.
  intros [H|[H|[H|[H|[H|[]]]]]]; discriminate H.
Defined.

(** ** The three external calls *)

(** X5.  No stage is repeated, whatever the services answer: a run
    sends at most one header probe and at most one completion request,
    and starts at most one child process. *)
Theorem no_stage_is_repeated
    json_loads urlparse_path slice_hashable environ world args unknown :
  let run := main json_loads urlparse_path slice_hashable environ world args unknown in
  count is_head (trace run) <= 1 /\
  count is_provider_call (trace run) <= 1 /\
  count is_run (trace run) <= 1.
Proof.
  exact (run_call_bounds json_loads urlparse_path slice_hashable environ world args
           unknown).
Qed.

(** X6.  The child process is the last thing a run does.  If [ffuf] is
    started, the probe and the completion request have each been made
    once before it, nothing follows it, and the run ends the way
    [subprocess.run] ends: an exception it raises (a missing
    executable, say) is the outcome of the run. *)
Theorem child_process_ends_the_run
    json_loads urlparse_path slice_hashable environ world args unknown cmd :
  let run := main json_loads urlparse_path slice_hashable environ world args unknown in
  In (ERun cmd) (trace run) ->
  exists before,
    run = (before ++ [ERun cmd], subprocess_run world cmd) /\
    count is_head before = 1 /\
    count is_provider_call before = 1 /\
    count is_run before = 0.
Proof.
  intros run Hin.
  destruct (run_child_inv json_loads urlparse_path slice_hashable environ world
              args unknown cmd Hin)
    as (url & headers & provider & model_or_key & data & extensions
        & Hreach & Hdata & Hnone & Hext & ->).
  destruct (run_with_extensions json_loads urlparse_path slice_hashable environ world
              args unknown url headers provider model_or_key data extensions
              Hreach Hdata Hnone Hext) as (before & Hrun & Hbefore).
  exists before. split; [exact Hrun|].
  pose proof (one_call_when_reached json_loads urlparse_path slice_hashable environ
                world args unknown url headers provider model_or_key Hreach) as Hcall.
  destruct Hreach as (Hurl & [path Hpath] & _).
  pose proof (one_probe_per_run json_loads _ slice_hashable environ world args
                _ _ _ Hurl Hpath) as Hhead.
  rewrite Hrun in Hcall, Hhead.
  cbn [trace fst] in Hcall, Hhead. rewrite count_app in Hcall, Hhead.
  cbn in Hcall, Hhead. repeat split; lia.
Qed.

Lemma child_process_ends_the_run_witness :
  let reply := Demo.two_extensions_text in
  let cmd := ["ffuf"; "-u"; Demo.target; "-e"; ".pdf,.pptx"] in
  exists before,
    main Demo.json_loads Demo.urlparse_path false {[ "OPENAI_API_KEY" := "sk" ]}
      (Cases.no_ffuf reply) default_args ["-u"; Demo.target]
    = (before ++ [ERun cmd],
       Exc (OtherError "FileNotFoundError"
              "[Errno 2] No such file or directory: 'ffuf'")).
Proof.
  intros reply cmd.
  destruct (child_process_ends_the_run Demo.json_loads Demo.urlparse_path false
              {[ "OPENAI_API_KEY" := "sk" ]} (Cases.no_ffuf reply) default_args
              ["-u"; Demo.target] cmd) as (before & Hrun & _).
  - vm_compute. do 3 right. left. reflexivity.
  - exists before. exact Hrun.
Defined.

(** X7.  The one completion request of a run carries the URL as it was
    given, placeholder included (not the URL that was probed), the
    headers the probe returned and the configured count. *)
Theorem request_carries_url_and_headers
    json_loads urlparse_path slice_hashable environ world args unknown
    url headers provider model_or_key :
  let run := main json_loads urlparse_path slice_hashable environ world args unknown in
  reaches_provider urlparse_path environ world unknown url headers provider model_or_key ->
  exists call,
    completion_call provider model_or_key (Prompt url headers (max_extensions args))
    = [call] /\
    In call (trace run) /\
    forall ev, In ev (trace run) -> is_provider_call ev = true -> ev = call.
Proof.
  intros run Hreach.
  pose proof (one_call_when_reached json_loads urlparse_path slice_hashable environ
                world args unknown url headers provider model_or_key Hreach) as Hone.
  destruct Hreach as (Hurl & [path Hpath] & Hheaders & Hsel).
  destruct (run_calls_provider json_loads _ slice_hashable environ world args
              _ _ _ Hurl Hpath headers provider model_or_key Hheaders Hsel)
    as (call & after & Hcall & Hkind & Ht).
  fold run in Ht, Hone. exists call. split; [exact Hcall|].
  rewrite Ht in Hone |- *. rewrite !count_app, count_cons, Hkind in Hone.
  split; [apply in_or_app; right; apply in_or_app; right; now left|].
  intros ev Hin Hev.
  apply in_app_or in Hin as [Hin|Hin];
    [|apply in_app_or in Hin as [Hin|[Hin|Hin]]]; try (symmetry; exact Hin).
  all: exfalso; eapply count_in; [exact Hin|exact Hev|lia].
Qed.

Lemma request_carries_url_and_headers_witness :
  In (EAnthropic "sk-ant" (Prompt Demo.target Demo.pdf_headers 4))
     (trace (main Demo.json_loads Demo.urlparse_path false
               {[ "ANTHROPIC_API_KEY" := "sk-ant" ]}
               (Demo.answering Demo.two_extensions_text) default_args
               ["-u"; Demo.target])).
Proof.
  destruct (request_carries_url_and_headers Demo.json_loads Demo.urlparse_path false
              {[ "ANTHROPIC_API_KEY" := "sk-ant" ]}
              (Demo.answering Demo.two_extensions_text) default_args
              ["-u"; Demo.target] Demo.target Demo.pdf_headers "anthropic" "sk-ant")
    as (call & Hcall & Hin & _).
  - repeat split; try reflexivity. exists "/presentations/FUZZ". reflexivity.
  - injection Hcall as <-. exact Hin.
Defined.

(** ** Exceptions before the provider is asked *)

(** X8.  A URL that [urlparse] rejects ends the run with that
    [ValueError] at once: nothing has been printed, no request has been
    sent, and the exception is not caught. *)
Theorem rejected_url_aborts
    json_loads urlparse_path slice_hashable environ world args unknown url e :
  find_url unknown = Val url ->
  urlparse_path url = Exc e ->
  main json_loads urlparse_path slice_hashable environ world args unknown = ([], Exc e).
Proof.
  intros Hurl Hpath.
  exact (main_bad_url json_loads urlparse_path slice_hashable environ world args
           unknown url Hurl e Hpath).
Qed.

Lemma rejected_url_aborts_witness :
  main Demo.json_loads Cases.urlparse_path false {[ "OPENAI_API_KEY" := "sk" ]}
    (Demo.answering Demo.two_extensions_text) default_args ["-u"; Cases.bad_url]
  = ([], Exc (ValueError "Invalid IPv6 URL")).
Proof.
  apply (rejected_url_aborts _ _ _ _ _ _ _ Cases.bad_url); reflexivity.
Defined.

(** X9.  The probe recovers from [requests] exceptions only.  Any other
    exception raised by the HEAD request ends the run right after the
    request: no diagnostic is printed, the provider is not looked up,
    nothing else is sent. *)
Theorem foreign_probe_exception_escapes
    json_loads urlparse_path slice_hashable environ world args unknown url path e :
  let base_url := str_remove "FUZZ" url in
  find_url unknown = Val url ->
  urlparse_path url = Val path ->
  requests_head world base_url = Exc e ->
  caught_by [C_RequestException] e = false ->
  main json_loads urlparse_path slice_hashable environ world args unknown
  = (warning_events path ++ [EHead base_url], Exc e).
Proof.
  intros base_url Hurl Hpath Hhead Hcaught.
  rewrite (main_spine _ _ _ _ _ _ _ _ Hurl _ Hpath). fold base_url.
  now rewrite (get_headers_escapes _ _ _ Hhead Hcaught).
Qed.

Lemma foreign_probe_exception_escapes_witness :
  main Demo.json_loads Demo.urlparse_path false {[ "OPENAI_API_KEY" := "sk" ]}
    Cases.broken_probe default_args ["-u"; Demo.target]
  = ([EHead "https://example.com/presentations/"],
     Exc (OtherError "urllib3.exceptions.LocationParseError" "Failed to parse")).
Proof.
  apply (foreign_probe_exception_escapes _ _ _ _ _ _ _ Demo.target "/presentations/FUZZ");
    reflexivity.
Defined.

(** ** After the provider has answered *)

Section Answered.

Variable json_loads : string -> result pyval.
Variable urlparse_path : string -> result string.
Variable slice_hashable : bool.
Variable environ : gmap string string.
Variable world : World.
Variable args : Args.
Variable unknown : list string.
Variables (url : string) (headers : gmap string string).
Variables (provider model_or_key : string).
Hypothesis Hreach :
  reaches_provider urlparse_path environ world unknown url headers provider model_or_key.

Let run := main json_loads urlparse_path slice_hashable environ world args unknown.
Let asked :=
  get_ai_extensions json_loads world url headers provider model_or_key (max_extensions args).
Let suggested :=
  suggest json_loads slice_hashable world args url headers provider model_or_key.

(** How a run ends when the second [try] block raises [e]. *)
Lemma run_with_block_exception e :
  outcome suggested = Exc e ->
  exists before,
    count is_run before = 0 /\
    run = if caught_by [C_JSONDecodeError; C_KeyError] e
          then (before ++ trace suggested ++ [EPrint (parse_error e)], Val tt)
          else (before ++ trace suggested, Exc e).
Proof.
  intros Hsug. destruct Hreach as (Hurl & [path Hpath] & Hheaders & Hsel).
  destruct (get_headers_trace world (str_remove "FUZZ" url)) as (rest & Ht & Hrest).
  exists (warning_events path ++ trace (get_headers world (str_remove "FUZZ" url))).
  split.
  - rewrite count_app, warning_events_count, Ht, count_cons by reflexivity.
    now rewrite (diagnostics_count _ _ diagnostic_not_run Hrest).
  - subst run. rewrite (main_spine _ _ _ _ _ _ _ _ Hurl _ Hpath).
    rewrite Hheaders, Hsel. cbv zeta.
    destruct (caught_by [C_JSONDecodeError; C_KeyError] e) eqn:Hc.
    + rewrite (guarded_caught _ _ _ _ _ _ _ _ _ Hsug Hc).
      cbn [trace outcome fst snd finish ret]. now rewrite app_nil_r, <- !app_assoc.
    + rewrite (guarded_escapes _ _ _ _ _ _ _ _ _ Hsug Hc).
      cbn [trace outcome fst snd finish raise]. now rewrite app_nil_r, <- !app_assoc.
Qed.

(** The same when the exception comes from taking the decoded response
    apart: the response has been printed by then. *)
Lemma run_with_extract_failure data e :
  outcome asked = Val data ->
  data <> PNone ->
  extract slice_hashable (max_extensions args) data = Exc e ->
  exists before,
    count is_run before = 0 /\
    run = if caught_by [C_JSONDecodeError; C_KeyError] e
          then (before ++ [EPrint (OVal data); EPrint (parse_error e)], Val tt)
          else (before ++ [EPrint (OVal data)], Exc e).
Proof.
  intros Hdata Hnone Hext.
  pose proof (suggest_data json_loads slice_hashable world args url headers
                provider model_or_key data Hdata Hnone) as Hsug.
  rewrite Hext in Hsug.
  assert (Hout : outcome suggested = Exc e) by (subst suggested; now rewrite Hsug).
  destruct (run_with_block_exception e Hout) as (before & Hbefore & Hrun).
  pose proof (suggest_count json_loads slice_hashable world args url headers
                provider model_or_key is_run) as Hcount.
  fold suggested in Hsug, Hcount. rewrite Hsug in Hrun, Hcount.
  cbn [trace fst] in Hrun, Hcount.
  exists (before ++ trace asked). split.
  - specialize (Hcount ltac:(now intros []) diagnostic_not_run).
    rewrite count_app in Hcount. rewrite count_app, Hbefore.
    subst asked. lia.
  - subst asked. rewrite Hrun. destruct (caught_by _ e); now rewrite <- !app_assoc.
Qed.


End Answered.


(** X10.  When the provider suggests no more extensions than the
    configured count, all of them reach [ffuf], in the order given: the
    flag value is their comma-join. *)
Theorem all_suggestions_are_kept
    json_loads urlparse_path slice_hashable environ world args unknown
    url headers provider model_or_key data items :
  let run := main json_loads urlparse_path slice_hashable environ world args unknown in
  let cmd := [ffuf_path args] ++ unknown ++ ["-e"; str_join "," items] in
  reaches_provider urlparse_path environ world unknown url headers provider model_or_key ->
  outcome (get_ai_extensions json_loads world url headers provider model_or_key
             (max_extensions args)) = Val data ->
  py_subscript data "extensions" = Val (PList (PStr <$> items)) ->
  (Z.of_nat (List.length items) <= max_extensions args)%Z ->
  exists before, run = (before ++ [ERun cmd], subprocess_run world cmd).
Proof.
  intros run cmd Hreach Hdata Hsub Hlen.
  assert (Hnone : data <> PNone) by (intros ->; discriminate Hsub).
  assert (Hitems : mapM as_str (py_slice_to (max_extensions args) (PStr <$> items))
                   = Some items).
  { rewrite py_slice_to_nonneg by lia.
    rewrite take_ge by (rewrite length_fmap; lia). apply as_str_items. }
  destruct (run_with_extensions json_loads urlparse_path slice_hashable environ world
              args unknown url headers provider model_or_key data _ Hreach Hdata Hnone
              (extract_list slice_hashable _ data _ items Hsub Hitems))
    as (before & Hrun & _).
  exists before. exact Hrun.
Qed.

Lemma all_suggestions_are_kept_witness :
  exists before,
    main Cases.json_loads Demo.urlparse_path false {[ "OLLAMA_MODEL" := "llama3" ]}
      (Demo.answering Cases.envelope_text) default_args ["-u"; Demo.target]
    = (before ++ [ERun ["ffuf"; "-u"; Demo.target; "-e"; ".pdf,.pptx"]], Val tt).
Proof.
  apply (all_suggestions_are_kept Cases.json_loads Demo.urlparse_path false
           {[ "OLLAMA_MODEL" := "llama3" ]} (Demo.answering Cases.envelope_text)
           default_args ["-u"; Demo.target] Demo.target Demo.pdf_headers
           "ollama" "llama3" Demo.two_extensions [".pdf"; ".pptx"]).
  - repeat split; try reflexivity. exists "/presentations/FUZZ". reflexivity.
  - vm_compute. reflexivity.
  - vm_compute. reflexivity.
  - cbn. lia.
Defined.



(** X12.  Nothing checks that the value under ["extensions"] is a list.
    When the provider puts a string there, the string is cut to the
    count and joined character by character: [".pdf"] becomes
    [.,p,d,f]. *)
Theorem string_value_is_joined_by_character
    json_loads urlparse_path slice_hashable environ world args unknown
    url headers provider model_or_key data s :
  let run := main json_loads urlparse_path slice_hashable environ world args unknown in
  let flag := str_join "," (py_slice_to (max_extensions args) (str_chars s)) in
  let cmd := [ffuf_path args] ++ unknown ++ ["-e"; flag] in
  reaches_provider urlparse_path environ world unknown url headers provider model_or_key ->
  outcome (get_ai_extensions json_loads world url headers provider model_or_key
             (max_extensions args)) = Val data ->
  py_subscript data "extensions" = Val (PStr s) ->
  exists before, run = (before ++ [ERun cmd], subprocess_run world cmd).
Proof.
  intros run flag cmd Hreach Hdata Hsub.
  assert (Hnone : data <> PNone) by (intros ->; discriminate Hsub).
  assert (Hext : extract slice_hashable (max_extensions args) data = Val flag).
  { unfold extract. rewrite Hsub. cbn [py_slice py_join].
    now rewrite str_chars_slice. }
  destruct (run_with_extensions json_loads urlparse_path slice_hashable environ world
              args unknown url headers provider model_or_key data _ Hreach Hdata Hnone
              Hext) as (before & Hrun & _).
  exists before. exact Hrun.
Qed.

Lemma string_value_is_joined_by_character_witness :
  exists before,
    main Cases.json_loads Demo.urlparse_path false {[ "OPENAI_API_KEY" := "sk" ]}
      (Demo.answering Cases.string_value_text) default_args ["-u"; Demo.target]
    = (before ++ [ERun ["ffuf"; "-u"; Demo.target; "-e"; ".,p,d,f"]], Val tt).
Proof.
  apply (string_value_is_joined_by_character Cases.json_loads Demo.urlparse_path false
           {[ "OPENAI_API_KEY" := "sk" ]} (Demo.answering Cases.string_value_text)
           default_args ["-u"; Demo.target] Demo.target Demo.pdf_headers
           "openai" "sk" Cases.string_value ".pdf").
  - repeat split; try reflexivity. exists "/presentations/FUZZ". reflexivity.
  - vm_compute. reflexivity.
  - vm_compute. reflexivity.
Defined.

(** X13.  Nothing checks the entries either, until they are joined.  If
    one of the entries kept by the count is not a string, [join] raises
    [TypeError] after the response has been printed; the [except]
    clause does not name it, so the exception ends the run and [ffuf]
    is not started. *)
Theorem non_string_entry_escapes
    json_loads urlparse_path slice_hashable environ world args unknown
    url headers provider model_or_key data l :
  let run := main json_loads urlparse_path slice_hashable environ world args unknown in
  reaches_provider urlparse_path environ world unknown url headers provider model_or_key ->
  outcome (get_ai_extensions json_loads world url headers provider model_or_key
             (max_extensions args)) = Val data ->
  py_subscript data "extensions" = Val (PList l) ->
  mapM as_str (py_slice_to (max_extensions args) l) = None ->
  exists before,
    run = (before ++ [EPrint (OVal data)],
           Exc (TypeError "sequence item: expected str instance")) /\
    count is_run before = 0.
Proof.
  intros run Hreach Hdata Hsub Hitems.
  assert (Hnone : data <> PNone) by (intros ->; discriminate Hsub).
  assert (Hext : extract slice_hashable (max_extensions args) data
                 = Exc (TypeError "sequence item: expected str instance")).
  { unfold extract. rewrite Hsub. cbn [py_slice py_join]. now rewrite Hitems. }
  destruct (run_with_extract_failure json_loads urlparse_path slice_hashable environ
              world args unknown url headers provider model_or_key Hreach data _
              Hdata Hnone Hext) as (before & Hbefore & Hrun).
  exists before. split; [exact Hrun|exact Hbefore].
Qed.

Lemma non_string_entry_escapes_witness :
  exists before,
    main Cases.json_loads Demo.urlparse_path false {[ "OPENAI_API_KEY" := "sk" ]}
      (Demo.answering Cases.mixed_text) default_args ["-u"; Demo.target]
    = (before ++ [EPrint (OVal Cases.mixed)],
       Exc (TypeError "sequence item: expected str instance")).
Proof.
  destruct (non_string_entry_escapes Cases.json_loads Demo.urlparse_path false
              {[ "OPENAI_API_KEY" := "sk" ]} (Demo.answering Cases.mixed_text)
              default_args ["-u"; Demo.target] Demo.target Demo.pdf_headers
              "openai" "sk" Cases.mixed [PStr ".php"; PInt 7])
    as (before & Hrun & _).
  - repeat split; try reflexivity. exists "/presentations/FUZZ". reflexivity.
  - vm_compute. reflexivity.
  - vm_compute. reflexivity.
  - reflexivity.
  - exists before. exact Hrun.
Defined.

(** X14.  A decoded object without the ["extensions"] key is printed
    first and reported second: the run prints the object, then the
    parse-error message carrying [KeyError('extensions')], and returns
    normally without starting [ffuf]. *)
Theorem missing_key_is_reported_after_the_response
    json_loads urlparse_path slice_hashable environ world args unknown
    url headers provider model_or_key d :
  let run := main json_loads urlparse_path slice_hashable environ world args unknown in
  reaches_provider urlparse_path environ world unknown url headers provider model_or_key ->
  outcome (get_ai_extensions json_loads world url headers provider model_or_key
             (max_extensions args)) = Val (PDict d) ->
  d !! "extensions" = None ->
  exists before,
    run = (before ++ [EPrint (OVal (PDict d));
                      EPrint (parse_error (KeyError (KStr "extensions")))],
           Val tt) /\
    count is_run before = 0.
Proof.
  intros run Hreach Hdata Hkey.
  assert (Hext : extract slice_hashable (max_extensions args) (PDict d)
                 = Exc (KeyError (KStr "extensions"))).
  { unfold extract. cbn [py_subscript]. now rewrite Hkey. }
  destruct (run_with_extract_failure json_loads urlparse_path slice_hashable environ
              world args unknown url headers provider model_or_key Hreach (PDict d) _
              Hdata ltac:(discriminate) Hext) as (before & Hbefore & Hrun).
  exists before. split; [exact Hrun|exact Hbefore].
Qed.

Lemma missing_key_is_reported_after_the_response_witness :
  exists before,
    main Cases.json_loads Demo.urlparse_path false {[ "ANTHROPIC_API_KEY" := "sk-ant" ]}
      (Demo.answering Cases.empty_object_text) default_args ["-u"; Demo.target]
    = (before ++ [EPrint (OVal (PDict ∅));
                  EPrint (parse_error (KeyError (KStr "extensions")))],
       Val tt).
Proof.
  destruct (missing_key_is_reported_after_the_response Cases.json_loads
              Demo.urlparse_path false {[ "ANTHROPIC_API_KEY" := "sk-ant" ]}
              (Demo.answering Cases.empty_object_text) default_args
              ["-u"; Demo.target] Demo.target Demo.pdf_headers "anthropic" "sk-ant" ∅)
    as (before & Hrun & _).
  - repeat split; try reflexivity. exists "/presentations/FUZZ". reflexivity.
  - vm_compute. reflexivity.
  - reflexivity.
  - exists before. exact Hrun.
Defined.

(** ** The local model *)

Section LocalModel.

Variable json_loads : string -> result pyval.
Variable world : World.
Variables (url : string) (headers : gmap string string).
Variables (model : string) (n : Z).

Let request := Prompt url headers n.
Let asked := get_ai_extensions json_loads world url headers "ollama" model n.

(** What the local-model branch returns once the HTTP exchange has
    succeeded with response [r]: the result of the two decoding steps,
    unless that is an exception of [requests]. *)
Lemma ollama_answered r decoded :
  requests_post world model request = Val r ->
  raise_for_status r = Val tt ->
  match json_loads (text r) with
  | Val envelope =>
      match py_subscript envelope "response" with
      | Val inner => json_loads_value json_loads inner
      | Exc e => Exc e
      end
  | Exc e => Exc e
  end = decoded ->
  match decoded with
  | Exc e => caught_by [C_RequestException] e = false
  | Val _ => True
  end ->
  asked = ([EOllama model request], decoded).
Proof.
  intros Hpost Hstatus Hdecoded Hforeign. subst asked. unfold get_ai_extensions.
  cbn [String.eqb Ascii.eqb Bool.eqb]. cbv iota. fold request.
  rewrite bind_emit, Hpost, bind_lift_val, Hstatus, bind_lift_val.
  destruct (json_loads (text r)) as [envelope|e].
  - rewrite bind_lift_val.
    destruct (py_subscript envelope "response") as [inner|e].
    + rewrite bind_lift_val. rewrite Hdecoded.
      unfold try_except. cbn [trace outcome fst snd lift].
      destruct decoded as [v|e]; [reflexivity|]. now rewrite Hforeign.
    + subst decoded. unfold try_except. cbn [trace outcome fst snd lift bind].
      now rewrite Hforeign.
  - subst decoded. unfold try_except. cbn [trace outcome fst snd lift bind].
    now rewrite Hforeign.
Qed.

End LocalModel.

(** X15.  The reply of the local model is decoded twice: the body is
    decoded to an envelope, and the string under its ["response"] key is
    decoded again; that second value is what the suggester returns,
    after a single request and without printing anything. *)
Theorem local_reply_is_decoded_twice
    json_loads world url headers model n r envelope inner data :
  requests_post world model (Prompt url headers n) = Val r ->
  raise_for_status r = Val tt ->
  json_loads (text r) = Val envelope ->
  py_subscript envelope "response" = Val (PStr inner) ->
  json_loads inner = Val data ->
  get_ai_extensions json_loads world url headers "ollama" model n
  = ([EOllama model (Prompt url headers n)], Val data).
Proof.
  intros Hpost Hstatus Henvelope Hinner Hdata.
  apply (ollama_answered json_loads world url headers model n r (Val data) Hpost Hstatus);
    [|exact I].
  rewrite Henvelope, Hinner. exact Hdata.
Qed.

Lemma local_reply_is_decoded_twice_witness :
  get_ai_extensions Cases.json_loads (Demo.answering Cases.envelope_text)
    Demo.target Demo.pdf_headers "ollama" "llama3" 4
  = ([EOllama "llama3" (Prompt Demo.target Demo.pdf_headers 4)], Val Demo.two_extensions).
Proof.
  apply (local_reply_is_decoded_twice Cases.json_loads
           (Demo.answering Cases.envelope_text) Demo.target Demo.pdf_headers "llama3" 4
           (Response 200 Cases.envelope_text) Cases.envelope Demo.two_extensions_text);
    vm_compute; reflexivity.
Defined.

(** X16.  The [except] clause of the local-model branch names
    [requests] exceptions only.  When the body of the reply is not
    valid JSON, the [JSONDecodeError] passes through that clause and is
    caught in [main]: the run prints the parse-error message right after
    the request and returns normally, without the ["Error communicating
    with Ollama"] line and without starting [ffuf]. *)
Theorem malformed_local_reply_reaches_main
    json_loads urlparse_path slice_hashable environ world args unknown
    url headers model r msg :
  let run := main json_loads urlparse_path slice_hashable environ world args unknown in
  let request := Prompt url headers (max_extensions args) in
  reaches_provider urlparse_path environ world unknown url headers "ollama" model ->
  requests_post world model request = Val r ->
  raise_for_status r = Val tt ->
  json_loads (text r) = Exc (JSONDecodeError msg) ->
  exists before,
    run = (before ++ [EOllama model request;
                      EPrint (parse_error (JSONDecodeError msg))], Val tt) /\
    count is_run before = 0.
Proof.
  intros run request Hreach Hpost Hstatus Hjson.
  pose proof (ollama_answered json_loads world url headers model (max_extensions args)
                r (Exc (JSONDecodeError msg)) Hpost Hstatus) as Hasked.
  rewrite Hjson in Hasked. specialize (Hasked eq_refl eq_refl).
  pose proof (suggest_exc json_loads slice_hashable world args url headers "ollama"
                model (JSONDecodeError msg)) as Hsug.
  rewrite Hasked in Hsug. specialize (Hsug eq_refl).
  destruct (run_with_block_exception json_loads urlparse_path slice_hashable environ
              world args unknown url headers "ollama" model Hreach
              (JSONDecodeError msg)) as (before & Hbefore & Hrun).
  { now rewrite Hsug. }
  rewrite Hsug in Hrun. exists before. split; [exact Hrun|exact Hbefore].
Qed.

Lemma malformed_local_reply_reaches_main_witness :
  exists before,
    main Demo.json_loads Demo.urlparse_path false {[ "OLLAMA_MODEL" := "llama3" ]}
      (Demo.answering "I suggest .php") default_args ["-u"; Demo.target]
    = (before ++ [EOllama "llama3" (Prompt Demo.target Demo.pdf_headers 4);
                  EPrint (parse_error
                            (JSONDecodeError "Expecting value: line 1 column 1 (char 0)"))],
       Val tt).
Proof.
  destruct (malformed_local_reply_reaches_main Demo.json_loads Demo.urlparse_path false
              {[ "OLLAMA_MODEL" := "llama3" ]} (Demo.answering "I suggest .php")
              default_args ["-u"; Demo.target] Demo.target Demo.pdf_headers "llama3"
              (Response 200 "I suggest .php") "Expecting value: line 1 column 1 (char 0)")
    as (before & Hrun & _).
  - repeat split; try reflexivity. exists "/presentations/FUZZ". reflexivity.
  - reflexivity.
  - reflexivity.
  - reflexivity.
  - exists before. exact Hrun.
Defined.

(** X17.  An envelope without the ["response"] key is reported the same
    way: the [KeyError] for ['response'] is caught in [main], which
    prints the parse-error message and returns without starting
    [ffuf]. *)
Theorem envelope_without_response_is_reported
    json_loads urlparse_path slice_hashable environ world args unknown
    url headers model r d :
  let run := main json_loads urlparse_path slice_hashable environ world args unknown in
  let request := Prompt url headers (max_extensions args) in
  reaches_provider urlparse_path environ world unknown url headers "ollama" model ->
  requests_post world model request = Val r ->
  raise_for_status r = Val tt ->
  json_loads (text r) = Val (PDict d) ->
  d !! "response" = None ->
  exists before,
    run = (before ++ [EOllama model request;
                      EPrint (parse_error (KeyError (KStr "response")))], Val tt) /\
    count is_run before = 0.
Proof.
  intros run request Hreach Hpost Hstatus Hjson Hkey.
  pose proof (ollama_answered json_loads world url headers model (max_extensions args)
                r (Exc (KeyError (KStr "response"))) Hpost Hstatus) as Hasked.
  rewrite Hjson in Hasked. cbn [py_subscript] in Hasked. rewrite Hkey in Hasked.
  specialize (Hasked eq_refl eq_refl).
  pose proof (suggest_exc json_loads slice_hashable world args url headers "ollama"
                model (KeyError (KStr "response"))) as Hsug.
  rewrite Hasked in Hsug. specialize (Hsug eq_refl).
  destruct (run_with_block_exception json_loads urlparse_path slice_hashable environ
              world args unknown url headers "ollama" model Hreach
              (KeyError (KStr "response"))) as (before & Hbefore & Hrun).
  { now rewrite Hsug. }
  rewrite Hsug in Hrun. exists before. split; [exact Hrun|exact Hbefore].
Qed.

Lemma envelope_without_response_is_reported_witness :
  exists before,
    main Demo.json_loads Demo.urlparse_path false {[ "OLLAMA_MODEL" := "llama3" ]}
      (Demo.answering Demo.two_extensions_text) default_args ["-u"; Demo.target]
    = (before ++ [EOllama "llama3" (Prompt Demo.target Demo.pdf_headers 4);
                  EPrint (parse_error (KeyError (KStr "response")))],
       Val tt).
Proof.
  destruct (envelope_without_response_is_reported Demo.json_loads Demo.urlparse_path
              false {[ "OLLAMA_MODEL" := "llama3" ]}
              (Demo.answering Demo.two_extensions_text) default_args
              ["-u"; Demo.target] Demo.target Demo.pdf_headers "llama3"
              (Response 200 Demo.two_extensions_text)
              {[ "extensions" := PList [PStr ".pdf"; PStr ".pptx"] ]})
    as (before & Hrun & _).
  - repeat split; try reflexivity. exists "/presentations/FUZZ". reflexivity.
  - reflexivity.
  - reflexivity.
  - vm_compute. reflexivity.
  - vm_compute. reflexivity.
  - exists before. exact Hrun.
Defined.

(** X18.  An error status is a transport failure.  When the local
    model answers with a status from 400 to 599, the body is not
    decoded at all: the suggester prints the diagnostic with the
    [HTTPError] and returns [None], whatever the body holds. *)
Theorem error_status_is_a_transport_failure
    json_loads world url headers model n r :
  requests_post world model (Prompt url headers n) = Val r ->
  (400 <= status_code r < 600)%Z ->
  get_ai_extensions json_loads world url headers "ollama" model n
  = ([EOllama model (Prompt url headers n);
      EPrint (OFmt "Error communicating with Ollama: " (HTTPError (status_code r)))],
     Val PNone).
Proof.
  intros Hpost Hstatus.
  apply get_ai_extensions_ollama_down; [reflexivity| |reflexivity].
  unfold ollama_request, raise_for_status. rewrite Hpost.
  replace (400 <=? status_code r)%Z with true by (symmetry; apply Z.leb_le; lia).
  replace (status_code r <? 600)%Z with true by (symmetry; apply Z.ltb_lt; lia).
  reflexivity.
Qed.

Lemma error_status_is_a_transport_failure_witness :
  get_ai_extensions Demo.json_loads Cases.wordless Demo.target Demo.pdf_headers
    "ollama" "llama3" 4
  = ([EOllama "llama3" (Prompt Demo.target Demo.pdf_headers 4);
      EPrint (OFmt "Error communicating with Ollama: " (HTTPError 500))],
     Val PNone).
Proof.
  apply (error_status_is_a_transport_failure Demo.json_loads Cases.wordless Demo.target
           Demo.pdf_headers "llama3" 4 (Response 500 "Internal Server Error"));
    [reflexivity|cbn; lia].
Defined.

(** ** The remote providers *)


